(** * Telegram control bots: task creation, approval gate and execution-mode routing

    Shallow embedding of [bot.py] (the file-backed bot: [/task], [/status],
    [/approve], [/reject]) and of [bot_v3.py] (the dual-mode bot: [/task],
    [/cloud], [/local], [/auto], [/status]).

    - A Python [str] is a list of Unicode code points.
    - The artifacts the bots touch (status, approval and response files, the
      tasks directory, the local exchange file) and the in-memory
      per-chat mode dictionary form one [world] record.
    - A command handler is a function from the update and the world it reads
      to the sequence of primitive effects it performs, in program order;
      [run] executes such a sequence and [trace] lists every intermediate
      world.
    - The clock, the process table and the remote HTTP endpoint are inputs.
    - Logging ([logger], [print]) is left out: it touches none of the
      artifacts above. In [bot.py] writes to the file system are taken to
      succeed; the write of the exchange file in [bot_v3.py], whose failure
      the code reports, has its outcome as an input. Text is written as it
      is (the line separator is the line feed) and read back with
      universal newlines. *)

From Stdlib Require Import ZArith NArith Ascii String DecimalString.
From Stdlib Require DecimalZ DecimalPos.
From stdpp Require Import base option list gmap.

Local Open Scope Z_scope.

(** ** Python strings *)

Module PyStr.

(** A code point. *)
Definition char := N.
Definition pystr := list char.

(** An ASCII literal as a Python string. *)
Fixpoint lit (s : string) : pystr :=
  match s with
  | EmptyString => []
  | String a s' => N_of_ascii a :: lit s'
  end.

Definition NL : pystr := [10%N].

(** [str(n)] for a Python [int]. *)
Definition str (n : Z) : pystr := lit (NilZero.string_of_int (Z.to_int n)).

(** [sep.join(parts)] *)
Fixpoint join (sep : pystr) (parts : list pystr) : pystr :=
  match parts with
  | [] => []
  | [p] => p
  | p :: rest => p ++ sep ++ join sep rest
  end.

(** [c.isspace()]: the code points CPython's [Py_UNICODE_ISSPACE] accepts;
    [str.strip()] and the [\s] class of a [str] pattern both use it. *)
Definition isspace (c : char) : bool :=
  ((9 <=? c) && (c <=? 13) || (28 <=? c) && (c <=? 32)
   || (c =? 133) || (c =? 160) || (c =? 5760)
   || (8192 <=? c) && (c <=? 8202)
   || (c =? 8232) || (c =? 8233) || (c =? 8239) || (c =? 8287)
   || (c =? 12288))%N.

Fixpoint lstrip (s : pystr) : pystr :=
  match s with
  | [] => []
  | c :: s' => if isspace c then lstrip s' else s
  end.

Definition rstrip (s : pystr) : pystr := rev (lstrip (rev s)).

(** [s.strip()] *)
Definition strip (s : pystr) : pystr := rstrip (lstrip s).

(** [s.startswith(p)] *)
Fixpoint startswith (p s : pystr) : bool :=
  match p, s with
  | [], _ => true
  | _ :: _, [] => false
  | a :: p', b :: s' => (a =? b)%N && startswith p' s'
  end.

(** [sub in s] *)
Fixpoint contains (sub s : pystr) : bool :=
  startswith sub s ||
  match s with
  | [] => false
  | _ :: s' => contains sub s'
  end.

(** [s.lower()] restricted to ASCII text. *)
Definition ascii_lower (s : pystr) : pystr :=
  map (fun c => if (65 <=? c) && (c <=? 90) then c + 32 else c)%N s.

(** What a file opened for reading in text mode hands over: each carriage
    return, alone or followed by a line feed, comes out as one line feed. *)
Fixpoint universal_newlines (s : pystr) : pystr :=
  match s with
  | [] => []
  | c :: rest =>
      if (c =? 13)%N then
        10%N :: match rest with
                | c' :: rest' =>
                    if (c' =? 10)%N then universal_newlines rest'
                    else universal_newlines rest
                | [] => []
                end
      else c :: universal_newlines rest
  end.

(** Python truthiness of an [Optional[str]]: [None] and [''] are falsy. *)
Definition truthy (o : option pystr) : bool :=
  match o with
  | Some (_ :: _) => true
  | _ => false
  end.

End PyStr.
Import PyStr.

(** ** The shared world and its primitive effects *)

Inductive backend := local | cloud.

#[global] Instance backend_eq_dec : EqDecision backend.
Proof. solve_decision. Defined.

(** The configured paths are taken to name different files, so each
    artifact is a field of its own; [None] is a file that does not exist. *)
Record world := {
  STATUS_FILE : option pystr;
  APPROVAL_FILE : option pystr;
  RESPONSE_FILE : option pystr;
  (** [None]: the directory does not exist; otherwise file name to content. *)
  TASKS_DIR : option (gmap pystr pystr);
  (** [~/claude_code_tasks/pending_task.txt] *)
  pending_task : option pystr;
  (** the dictionary [user_execution_mode] of [bot_v3.py] *)
  user_execution_mode : gmap Z backend;
}.

Definition empty_world : world :=
  {| STATUS_FILE := None; APPROVAL_FILE := None; RESPONSE_FILE := None;
     TASKS_DIR := None; pending_task := None; user_execution_mode := ∅ |}.

(** The three [ValueError]s of [sanitize_task_description], by message. *)
Inductive ValueError := too_long | forbidden_characters | path_separators.

(** What a handler sends back with [update.message.reply_text]: one
    constructor per message template, carrying the interpolated values. *)
Inductive message :=
  (* bot.py *)
  | Unauthorized
  | Help
  | Pong
  | StatusReport (status : option pystr) (approval_pending : bool)
  | Usage
  | TaskCreated (description task_file_name : pystr)
  | ValidationFailed (e : ValueError)
  | NoPendingApprovals
  | Approved
  | Rejected
  (* bot_v3.py *)
  | Welcome (mode : backend)
  | TaskUsage
  | TaskQueued (mode : backend) (task_description : pystr)
  | CloudTriggered
  | CloudFailed
  | LocalSent
  | LocalFailed
  | SwitchedToCloud
  | SwitchedToLocal
  | AutoDetectEnabled (mode : backend)
  | ModeStatus (current_setting : option backend) (detected_mode : backend)
               (github_available : bool) (active_mode : backend).

(** The [requests.post] call of [trigger_github_actions]. *)
Record dispatch_request := {
  url : pystr;
  authorization : pystr;
  event_type : pystr;
  task : pystr;
  chat_id : pystr;
  message_id : pystr;
}.

(** An exception that no [except] clause of the handler catches. *)
Inductive exception := AttributeError.

Inductive effect :=
  | uncaught (e : exception)
  | reply_text (m : message)
  | write_STATUS_FILE (content : pystr)
  | write_RESPONSE_FILE (content : pystr)
  | unlink_APPROVAL_FILE
  | mkdir_TASKS_DIR
  | write_task_file (file_name content : pystr)
  | write_pending_task (content : pystr)
  | requests_post (req : dispatch_request)
  | set_user_execution_mode (chat : Z) (mode : backend).

Definition set_STATUS_FILE (v : option pystr) (w : world) : world :=
  {| STATUS_FILE := v; APPROVAL_FILE := APPROVAL_FILE w;
     RESPONSE_FILE := RESPONSE_FILE w; TASKS_DIR := TASKS_DIR w;
     pending_task := pending_task w;
     user_execution_mode := user_execution_mode w |}.

Definition set_APPROVAL_FILE (v : option pystr) (w : world) : world :=
  {| STATUS_FILE := STATUS_FILE w; APPROVAL_FILE := v;
     RESPONSE_FILE := RESPONSE_FILE w; TASKS_DIR := TASKS_DIR w;
     pending_task := pending_task w;
     user_execution_mode := user_execution_mode w |}.

Definition set_RESPONSE_FILE (v : option pystr) (w : world) : world :=
  {| STATUS_FILE := STATUS_FILE w; APPROVAL_FILE := APPROVAL_FILE w;
     RESPONSE_FILE := v; TASKS_DIR := TASKS_DIR w;
     pending_task := pending_task w;
     user_execution_mode := user_execution_mode w |}.

Definition set_TASKS_DIR (v : option (gmap pystr pystr)) (w : world) : world :=
  {| STATUS_FILE := STATUS_FILE w; APPROVAL_FILE := APPROVAL_FILE w;
     RESPONSE_FILE := RESPONSE_FILE w; TASKS_DIR := v;
     pending_task := pending_task w;
     user_execution_mode := user_execution_mode w |}.

Definition set_pending_task (v : option pystr) (w : world) : world :=
  {| STATUS_FILE := STATUS_FILE w; APPROVAL_FILE := APPROVAL_FILE w;
     RESPONSE_FILE := RESPONSE_FILE w; TASKS_DIR := TASKS_DIR w;
     pending_task := v;
     user_execution_mode := user_execution_mode w |}.

Definition set_modes (v : gmap Z backend) (w : world) : world :=
  {| STATUS_FILE := STATUS_FILE w; APPROVAL_FILE := APPROVAL_FILE w;
     RESPONSE_FILE := RESPONSE_FILE w; TASKS_DIR := TASKS_DIR w;
     pending_task := pending_task w;
     user_execution_mode := v |}.

(** One primitive step. [None] is an exception the handler does not expect:
    [Path.unlink] on a missing file, a write into a missing directory, or
    one that is already on its way out of the handler. *)
Definition exec (e : effect) (w : world) : option world :=
  match e with
  | uncaught _ => None
  | reply_text _ => Some w
  | write_STATUS_FILE c => Some (set_STATUS_FILE (Some c) w)
  | write_RESPONSE_FILE c => Some (set_RESPONSE_FILE (Some c) w)
  | unlink_APPROVAL_FILE =>
      match APPROVAL_FILE w with
      | Some _ => Some (set_APPROVAL_FILE None w)
      | None => None
      end
  | mkdir_TASKS_DIR =>
      match TASKS_DIR w with
      | Some _ => Some w
      | None => Some (set_TASKS_DIR (Some ∅) w)
      end
  | write_task_file f c =>
      match TASKS_DIR w with
      | Some files => Some (set_TASKS_DIR (Some (<[f:=c]> files)) w)
      | None => None
      end
  | write_pending_task c => Some (set_pending_task (Some c) w)
  | requests_post _ => Some w
  | set_user_execution_mode chat m =>
      Some (set_modes (<[chat:=m]> (user_execution_mode w)) w)
  end.

(** Run a handler's effects in order. *)
Fixpoint run (effs : list effect) (w : world) : option world :=
  match effs with
  | [] => Some w
  | e :: effs' =>
      match exec e w with
      | Some w' => run effs' w'
      | None => None
      end
  end.

(** Every world a concurrent observer could see while the effects run:
    the starting world, then the world after each step. *)
Fixpoint trace (effs : list effect) (w : world) : list world :=
  w :: match effs with
       | [] => []
       | e :: effs' =>
           match exec e w with
           | Some w' => trace effs' w'
           | None => []
           end
       end.

(** Effects that change an artifact or the mode dictionary, or reach a
    backend; an exception that leaves the handler is counted with them. *)
Definition mutates (e : effect) : bool :=
  match e with
  | reply_text _ => false
  | _ => true
  end.

(** A backend dispatch: the local exchange-file write or the cloud trigger. *)
Definition is_dispatch (e : effect) : bool :=
  match e with
  | write_pending_task _ | requests_post _ => true
  | _ => false
  end.

(** The incoming Telegram update, as far as the handlers read it. *)
Record update := {
  effective_user_id : Z;
  effective_chat_id : Z;
  update_message_id : Z;
  args : list pystr;
}.

(** The same update sent by another user. *)
Definition with_user (user_id : Z) (u : update) : update :=
  {| effective_user_id := user_id;
     effective_chat_id := effective_chat_id u;
     update_message_id := update_message_id u;
     args := args u |}.

(** ** bot.py *)

Module Bot.

Definition MAX_TASK_DESCRIPTION_LENGTH : nat := 500.

(** The character class of [ALLOWED_TASK_CHARS]: [[a-zA-Z0-9\s\-_.,!?]]. *)
Definition allowed_task_char (c : char) : bool :=
  ((97 <=? c) && (c <=? 122) || (65 <=? c) && (c <=? 90)
   || (48 <=? c) && (c <=? 57) || isspace c
   || (c =? 45) || (c =? 95) || (c =? 46) || (c =? 44)
   || (c =? 33) || (c =? 63))%N.

(** The greedy [[...]+]: what is left after the longest run of class
    characters. *)
Fixpoint skip_allowed (s : pystr) : pystr :=
  match s with
  | [] => []
  | c :: s' => if allowed_task_char c then skip_allowed s' else s
  end.

(** [$]: the end of the string, or just before a final newline. *)
Definition at_dollar (rest : pystr) : bool :=
  match rest with
  | [] => true
  | [c] => (c =? 10)%N
  | _ => false
  end.

(** [ALLOWED_TASK_CHARS.match(s)] is not [None]. The run must take at least
    one character and [$] must hold where it stops; giving characters back
    cannot help, because the run stops only at a character outside the
    class while the newline is inside it. *)
Definition ALLOWED_TASK_CHARS_match (s : pystr) : bool :=
  let rest := skip_allowed s in
  (length rest <? length s)%nat && at_dollar rest.

Definition sanitize_task_description (description : pystr)
  : ValueError + pystr :=
  let description := strip description in
  if (MAX_TASK_DESCRIPTION_LENGTH <? length description)%nat then
    inl too_long
  else if negb (ALLOWED_TASK_CHARS_match description) then
    inl forbidden_characters
  else if contains (lit "/") description || contains (lit "\") description
          || contains (lit "..") description then
    inl path_separators
  else inr description.

(** The three readings of [datetime.now()] in [create_task]. *)
Record clock := {
  (** [strftime("%Y%m%d_%H%M%S_%f")] *)
  timestamp : pystr;
  (** [isoformat()] *)
  created : pystr;
  (** [strftime('%I:%M %p')] *)
  started : pystr;
}.

Definition task_file_name (now : clock) : pystr :=
  lit "telegram_" ++ timestamp now ++ lit ".md".

Definition task_content (now : clock) (description : pystr) : pystr :=
  lit "# Task from Telegram" ++ NL ++ NL ++
  lit "**Created:** " ++ created now ++ NL ++
  lit "**Status:** pending" ++ NL ++ NL ++
  lit "## Description" ++ NL ++
  description ++ NL ++ NL ++
  lit "## Instructions" ++ NL ++
  lit "Execute autonomously. Report progress to status file." ++ NL.

(** The status text starts with U+1F7E2. *)
Definition status_content (now : clock) (description : pystr) : pystr :=
  [128994%N] ++ lit " New Task" ++ NL ++ NL ++
  lit "Task: " ++ description ++ NL ++
  lit "Started: " ++ started now ++ NL ++
  lit "File: " ++ task_file_name now ++ NL.

(** [' '.join(context.args)] *)
Definition raw_description (u : update) : pystr := join (lit " ") (args u).

Section Handlers.

Variable AUTHORIZED_USER_ID : option pystr.

Definition is_authorized (user_id : Z) : bool :=
  bool_decide (Some (str user_id) = AUTHORIZED_USER_ID).

Definition start (u : update) (w : world) : list effect :=
  if negb (is_authorized (effective_user_id u)) then
    [reply_text Unauthorized]
  else [reply_text Help].

Definition ping (u : update) (w : world) : list effect :=
  if negb (is_authorized (effective_user_id u)) then []
  else [reply_text Pong].

(** [STATUS_FILE.read_text] reads in text mode, with universal newlines. *)
Definition status (u : update) (w : world) : list effect :=
  if negb (is_authorized (effective_user_id u)) then []
  else [reply_text (StatusReport (universal_newlines <$> STATUS_FILE w)
                                 (bool_decide (is_Some (APPROVAL_FILE w))))].

Definition create_task (now : clock) (u : update) (w : world)
  : list effect :=
  if negb (is_authorized (effective_user_id u)) then []
  else
    match args u with
    | [] => [reply_text Usage]
    | _ :: _ =>
        match sanitize_task_description (raw_description u) with
        | inl e => [reply_text (ValidationFailed e)]
        | inr description =>
            [ mkdir_TASKS_DIR;
              write_task_file (task_file_name now)
                              (task_content now description);
              write_STATUS_FILE (status_content now description);
              reply_text (TaskCreated description (task_file_name now)) ]
        end
    end.

Definition approve (u : update) (w : world) : list effect :=
  if negb (is_authorized (effective_user_id u)) then []
  else
    match APPROVAL_FILE w with
    | None => [reply_text NoPendingApprovals]
    | Some _ =>
        [ write_RESPONSE_FILE (lit "APPROVED");
          unlink_APPROVAL_FILE;
          reply_text Approved ]
    end.

Definition reject (u : update) (w : world) : list effect :=
  if negb (is_authorized (effective_user_id u)) then []
  else
    match APPROVAL_FILE w with
    | None => [reply_text NoPendingApprovals]
    | Some _ =>
        [ write_RESPONSE_FILE (lit "REJECTED");
          unlink_APPROVAL_FILE;
          reply_text Rejected ]
    end.

End Handlers.

(** The effects of a task creation that passed validation, by name. *)
Definition creation_effects (now : clock) (description : pystr)
  : list effect :=
  [ mkdir_TASKS_DIR;
    write_task_file (task_file_name now) (task_content now description);
    write_STATUS_FILE (status_content now description);
    reply_text (TaskCreated description (task_file_name now)) ].

(** A poller sees a resolution in the response file while the approval
    file still marks the gate as open. *)
Definition resolution_while_open (w : world) : bool :=
  bool_decide (is_Some (RESPONSE_FILE w) /\ is_Some (APPROVAL_FILE w)).

(** No world an observer can see while [effs] run shows a resolution next
    to an open gate. *)
Definition resolves_atomically (effs : list effect) (w : world) : Prop :=
  Forall (fun w' => resolution_while_open w' = false) (trace effs w).

(** *** Startup *)

(** The environment variables [bot.py] reads when it is loaded. *)
Record environ := {
  TELEGRAM_BOT_TOKEN : option pystr;
  TELEGRAM_USER_ID : option pystr;
  CLAUDE_STATUS_FILE : option pystr;
  CLAUDE_APPROVAL_FILE : option pystr;
  CLAUDE_RESPONSE_FILE : option pystr;
  CLAUDE_TASKS_DIR : option pystr;
}.

(** The messages [validate_configuration] collects. *)
Inductive config_error :=
  | token_not_set
  | user_id_not_set
  | status_file_not_set
  | approval_file_not_set
  | response_file_not_set
  | tasks_dir_not_set.

Section Configuration.

(** [str(Path(s))], which depends on the platform's path flavour. *)
Variable path_str : pystr -> pystr.

(** [not P or str(P) == '.'] for [P = Path(os.getenv(name, ''))]: a [Path]
    is always truthy, so only the comparison decides. *)
Definition path_not_set (value : option pystr) : bool :=
  bool_decide (path_str (default [] value) = lit ".").

(** The errors found; [sys.exit(1)] follows when there is one. *)
Definition validate_configuration (env : environ) : list config_error :=
  (if negb (truthy (TELEGRAM_BOT_TOKEN env)) then [token_not_set] else [])
  ++ (if negb (truthy (TELEGRAM_USER_ID env)) then [user_id_not_set] else [])
  ++ (if path_not_set (CLAUDE_STATUS_FILE env)
      then [status_file_not_set] else [])
  ++ (if path_not_set (CLAUDE_APPROVAL_FILE env)
      then [approval_file_not_set] else [])
  ++ (if path_not_set (CLAUDE_RESPONSE_FILE env)
      then [response_file_not_set] else [])
  ++ (if path_not_set (CLAUDE_TASKS_DIR env)
      then [tasks_dir_not_set] else []).

End Configuration.

(** *** The command table of [main] *)

Inductive command :=
  | slash_start
  | slash_ping
  | slash_status
  | slash_task
  | slash_approve
  | slash_reject.

(** One incoming command, with the clock readings of its handling. *)
Record event := {
  command_of : command;
  update_of : update;
  clock_of : clock;
}.

Section Polling.

Variable AUTHORIZED_USER_ID : option pystr.

Definition handle (ev : event) (w : world) : list effect :=
  match command_of ev with
  | slash_start => start AUTHORIZED_USER_ID (update_of ev) w
  | slash_ping => ping AUTHORIZED_USER_ID (update_of ev) w
  | slash_status => status AUTHORIZED_USER_ID (update_of ev) w
  | slash_task =>
      create_task AUTHORIZED_USER_ID (clock_of ev) (update_of ev) w
  | slash_approve => approve AUTHORIZED_USER_ID (update_of ev) w
  | slash_reject => reject AUTHORIZED_USER_ID (update_of ev) w
  end.

(** The updates are handled one after the other. *)
Fixpoint run_polling (events : list event) (w : world) : option world :=
  match events with
  | [] => Some w
  | ev :: events' =>
      match run (handle ev w) w with
      | Some w' => run_polling events' w'
      | None => None
      end
  end.

End Polling.

End Bot.

(** ** bot_v3.py *)

Module BotV3.

Definition GITHUB_REPO : pystr := lit "Everest18/claude-code-telegram-control".

(** One entry of [psutil.process_iter(['name', 'cmdline'])]: a field that
    could not be read (access denied, zombie process) is [None]. *)
Record process := {
  name : option pystr;
  cmdline : option (list pystr);
}.

(** How the write of the exchange file ends: with all of the text in the
    file, or with an exception, before the file was opened ([None]: the
    file is as it was) or after ([Some remains]: the file was emptied on
    opening and holds what got written). *)
Inductive write_outcome :=
  | written
  | write_failed (remains : option pystr).

(** The answer of the remote endpoint to one [requests.post]. *)
Inductive http_outcome :=
  | raised
  | response (status_code : Z) (text : pystr).

Section Handlers.

(** [str.lower]. *)
Variable lower : pystr -> pystr.

Variable GITHUB_TOKEN : option pystr.

(** The test of the loop body of [detect_execution_mode],
    ['claude' in cmdline.lower() or 'code' in proc.info['name'].lower()]:
    the name is looked at only when the command line does not match, and
    [None] is the [AttributeError] of [None.lower()]. *)
Definition agent_signature (proc : process) : option bool :=
  let cmdline := join (lit " ") (default [] (cmdline proc)) in
  if contains (lit "claude") (lower cmdline) then Some true
  else
    match name proc with
    | Some name => Some (contains (lit "code") (lower name))
    | None => None
    end.

(** [None]: the [AttributeError] leaves the function, since the [except]
    clause of the loop names only [NoSuchProcess] and [AccessDenied]. *)
Fixpoint detect_execution_mode (procs : list process) : option backend :=
  match procs with
  | [] => Some cloud
  | proc :: procs' =>
      match agent_signature proc with
      | Some true => Some local
      | Some false => detect_execution_mode procs'
      | None => None
      end
  end.

Definition start (procs : list process) (u : update) (w : world)
  : list effect :=
  match detect_execution_mode procs with
  | None => [uncaught AttributeError]
  | Some mode => [reply_text (Welcome mode)]
  end.

Definition dispatch_url : pystr :=
  lit "https://api.github.com/repos/" ++ GITHUB_REPO ++ lit "/dispatches".

(** The [url], [headers] and [payload] that [trigger_github_actions]
    builds; the fixed [Accept] header is left out. *)
Definition build_request (chat : Z) (task_description : pystr) (message : Z)
  : dispatch_request :=
  {| url := dispatch_url;
     authorization := lit "Bearer " ++ default [] GITHUB_TOKEN;
     event_type := lit "execute-task";
     task := task_description;
     chat_id := str chat;
     message_id := str message |}.

Definition trigger_github_actions (post : dispatch_request -> http_outcome)
    (chat : Z) (task_description : pystr) (message : Z)
  : bool * list effect :=
  if negb (truthy GITHUB_TOKEN) then (false, [])
  else
    let req := build_request chat task_description message in
    match post req with
    | response status_code _ =>
        if status_code =? 204 then (true, [requests_post req])
        else (false, [requests_post req])
    | raised => (false, [requests_post req])
    end.

Definition trigger_local_execution (write : pystr -> write_outcome)
    (task_description : pystr) : bool * list effect :=
  match write task_description with
  | written => (true, [write_pending_task task_description])
  | write_failed None => (false, [])
  | write_failed (Some remains) => (false, [write_pending_task remains])
  end.

(** [user_execution_mode.get(chat_id, detect_execution_mode())]: the probe
    runs in either case, its result is used only when the key is absent;
    [None] when the probe raises. *)
Definition execution_mode (procs : list process) (chat : Z) (w : world)
  : option backend :=
  match detect_execution_mode procs with
  | None => None
  | Some detected => Some (default detected (user_execution_mode w !! chat))
  end.

Definition task_command (procs : list process)
    (post : dispatch_request -> http_outcome)
    (write : pystr -> write_outcome) (u : update) (w : world)
  : list effect :=
  let chat := effective_chat_id u in
  match args u with
  | [] => [reply_text TaskUsage]
  | _ :: _ =>
      let task_description := join (lit " ") (args u) in
      match execution_mode procs chat w with
      | None => [uncaught AttributeError]
      | Some mode =>
          reply_text (TaskQueued mode task_description) ::
          match mode with
          | cloud =>
              let '(success, effs) :=
                trigger_github_actions post chat task_description
                                       (update_message_id u) in
              effs ++ [reply_text (if success then CloudTriggered
                                   else CloudFailed)]
          | local =>
              let '(success, effs) :=
                trigger_local_execution write task_description in
              effs ++ [reply_text (if success then LocalSent
                                   else LocalFailed)]
          end
      end
  end.

Definition cloud_mode (u : update) (w : world) : list effect :=
  let chat := effective_chat_id u in
  [set_user_execution_mode chat cloud; reply_text SwitchedToCloud].

Definition local_mode (u : update) (w : world) : list effect :=
  let chat := effective_chat_id u in
  [set_user_execution_mode chat local; reply_text SwitchedToLocal].

Definition auto_mode (procs : list process) (u : update) (w : world)
  : list effect :=
  let chat := effective_chat_id u in
  match detect_execution_mode procs with
  | None => [uncaught AttributeError]
  | Some mode =>
      [set_user_execution_mode chat mode;
       reply_text (AutoDetectEnabled mode)]
  end.

(** [current_mode] is [None] where the source shows ["auto"]. *)
Definition status_command (procs : list process) (u : update) (w : world)
  : list effect :=
  let chat := effective_chat_id u in
  let current_mode := user_execution_mode w !! chat in
  match detect_execution_mode procs with
  | None => [uncaught AttributeError]
  | Some detected_mode =>
      let github_available := truthy GITHUB_TOKEN in
      [reply_text (ModeStatus current_mode detected_mode github_available
                              (default detected_mode
                                       (user_execution_mode w !! chat)))]
  end.

End Handlers.

(** Every name of the table could be read. *)
Definition all_named (procs : list process) : Prop :=
  Forall (fun proc => is_Some (name proc)) procs.

Definition is_post (e : effect) : bool :=
  match e with
  | requests_post _ => true
  | _ => false
  end.

Definition is_failure_reply (e : effect) : bool :=
  match e with
  | reply_text CloudFailed => true
  | _ => false
  end.

Definition mentions_failed (content : pystr) : bool :=
  contains (lit "failed") content.

(** Some stored artifact (the status file or a task file) records the
    status [failed]. *)
Definition failed_status_stored (w : world) : bool :=
  from_option mentions_failed false (STATUS_FILE w)
  || existsb (fun entry => mentions_failed entry.2)
             (map_to_list (default ∅ (TASKS_DIR w))).

(** *** The command table of [main] *)

Inductive command :=
  | slash_start
  | slash_task
  | slash_cloud
  | slash_local
  | slash_auto
  | slash_status.

(** One incoming command, with the process table and the behaviour of the
    remote endpoint and of the disk at the time of its handling. *)
Record event := {
  command_of : command;
  update_of : update;
  processes_of : list process;
  endpoint_of : dispatch_request -> http_outcome;
  disk_of : pystr -> write_outcome;
}.

Section Polling.

Variable lower : pystr -> pystr.
Variable GITHUB_TOKEN : option pystr.

Definition handle (ev : event) (w : world) : list effect :=
  match command_of ev with
  | slash_start => start lower (processes_of ev) (update_of ev) w
  | slash_task =>
      task_command lower GITHUB_TOKEN (processes_of ev) (endpoint_of ev)
                   (disk_of ev) (update_of ev) w
  | slash_cloud => cloud_mode (update_of ev) w
  | slash_local => local_mode (update_of ev) w
  | slash_auto => auto_mode lower (processes_of ev) (update_of ev) w
  | slash_status =>
      status_command lower GITHUB_TOKEN (processes_of ev) (update_of ev) w
  end.

Fixpoint run_polling (events : list event) (w : world) : option world :=
  match events with
  | [] => Some w
  | ev :: events' =>
      match run (handle ev w) w with
      | Some w' => run_polling events' w'
      | None => None
      end
  end.

End Polling.

End BotV3.

(** ** .github/scripts/send_notification.py *)

Module Notification.

Record environ := {
  TELEGRAM_BOT_TOKEN : option pystr;
  CHAT_ID : option pystr;
  TASK_STATUS : option pystr;
  TASK_RESULT : option pystr;
}.

(** The [sendMessage] call: its address and JSON payload. *)
Record send_message := {
  send_url : pystr;
  send_chat_id : pystr;
  send_text : pystr;
  send_parse_mode : pystr;
}.

Section SendNotification.

(** [str.upper]. *)
Variable upper : pystr -> pystr.

(** U+2705 for the status [success], U+274C for any other. *)
Definition status_emoji (task_status : pystr) : pystr :=
  if bool_decide (task_status = lit "success") then [9989%N]
  else [10060%N].

Definition message (task_status task_result : pystr) : pystr :=
  status_emoji task_status ++
  lit " *AgentRemote Cloud Execution Complete*" ++ NL ++ NL ++
  lit "*Status:* " ++ upper task_status ++ NL ++ NL ++
  lit "*Result:*" ++ NL ++
  lit "```" ++ NL ++
  take 3000 task_result ++ NL ++
  lit "```" ++ NL ++ NL ++
  lit "_Executed via GitHub Actions_" ++ NL.

(** The request posted, if any. Its outcome is only printed. *)
Definition send_notification (env : environ) : option send_message :=
  let bot_token := TELEGRAM_BOT_TOKEN env in
  let chat_id := CHAT_ID env in
  let task_status := default (lit "unknown") (TASK_STATUS env) in
  let task_result := default (lit "No result available") (TASK_RESULT env) in
  if negb (truthy bot_token) || negb (truthy chat_id) then None
  else
    Some {| send_url := lit "https://api.telegram.org/bot"
                        ++ default [] bot_token ++ lit "/sendMessage";
            send_chat_id := default [] chat_id;
            send_text := message task_status task_result;
            send_parse_mode := lit "Markdown" |}.

End SendNotification.

End Notification.

(** ** .github/scripts/cloud_executor.py: the commands taken from a reply *)

Module CloudExecutor.

(** [s.split('\n')] *)
Fixpoint split_lines (s : pystr) : list pystr :=
  match s with
  | [] => [[]]
  | c :: s' =>
      if (c =? 10)%N then [] :: split_lines s'
      else
        match split_lines s' with
        | line :: lines => (c :: line) :: lines
        | [] => [[c]]
        end
  end.

(** The body of the loop over the lines: [line[5:].strip()] when the line
    starts with [EXEC:]. *)
Definition exec_command (line : pystr) : option pystr :=
  if startswith (lit "EXEC:") line then Some (strip (drop 5 line))
  else None.

(** The commands handed to the shell, in order. *)
Definition exec_commands (result : pystr) : list pystr :=
  omap exec_command (split_lines result).

End CloudExecutor.

(** ** Concrete inputs used in the examples below *)

Module Sample.

Definition owner : option pystr := Some (lit "12345").

Definition from_owner (words : list pystr) : update :=
  {| effective_user_id := 12345; effective_chat_id := 12345;
     update_message_id := 7; args := words |}.

Definition from_stranger (words : list pystr) : update :=
  {| effective_user_id := 999; effective_chat_id := 999;
     update_message_id := 8; args := words |}.

Definition noon : Bot.clock :=
  {| Bot.timestamp := lit "20240101_120000_000001";
     Bot.created := lit "2024-01-01T12:00:00.000002";
     Bot.started := lit "12:00 PM" |}.

Definition gate_open : world :=
  set_APPROVAL_FILE (Some (lit "Run the migration?")) empty_world.

Definition token : option pystr := Some (lit "ghp_example").

Definition no_agent : list BotV3.process :=
  [ {| BotV3.name := Some (lit "bash");
       BotV3.cmdline := Some [lit "-bash"] |} ].

Definition agent_running : list BotV3.process :=
  [ {| BotV3.name := Some (lit "bash");
       BotV3.cmdline := Some [lit "-bash"] |};
    {| BotV3.name := Some (lit "node");
       BotV3.cmdline := Some [lit "node"; lit "/usr/bin/Claude"] |} ].

(** A process of which neither field could be read. *)
Definition denied : BotV3.process :=
  {| BotV3.name := None; BotV3.cmdline := None |}.

Definition disk_ok (text : pystr) : BotV3.write_outcome := BotV3.written.

Definition disk_locked (text : pystr) : BotV3.write_outcome :=
  BotV3.write_failed None.

Definition unreachable (req : dispatch_request) : BotV3.http_outcome :=
  BotV3.raised.

Definition accepting (req : dispatch_request) : BotV3.http_outcome :=
  BotV3.response 204 [].

Definition cloud_pinned : world :=
  set_modes {[ 12345 := cloud ]} empty_world.

Definition dots : pystr := repeat 46%N 500.
Definition letters : pystr := repeat 97%N 500.

Definition later : Bot.clock :=
  {| Bot.timestamp := lit "20240101_120500_000003";
     Bot.created := lit "2024-01-01T12:05:00.000004";
     Bot.started := lit "12:05 PM" |}.

Definition request : update :=
  from_owner [lit "fix"; lit "the"; lit "parser"].

(** A stand-in for the printing of paths: the empty path prints as a
    dot, any other as itself. *)
Definition printed_path (s : pystr) : pystr :=
  match s with
  | [] => lit "."
  | _ => s
  end.

Definition unconfigured : Bot.environ :=
  {| Bot.TELEGRAM_BOT_TOKEN := None; Bot.TELEGRAM_USER_ID := None;
     Bot.CLAUDE_STATUS_FILE := None; Bot.CLAUDE_APPROVAL_FILE := None;
     Bot.CLAUDE_RESPONSE_FILE := None; Bot.CLAUDE_TASKS_DIR := None |}.

Definition owner_sends (c : Bot.command) : Bot.event :=
  {| Bot.command_of := c; Bot.update_of := request; Bot.clock_of := noon |}.

Definition stranger_sends (c : Bot.command) : Bot.event :=
  {| Bot.command_of := c;
     Bot.update_of := from_stranger [lit "deploy"];
     Bot.clock_of := noon |}.

Definition v3_owner_sends (c : BotV3.command) : BotV3.event :=
  {| BotV3.command_of := c; BotV3.update_of := request;
     BotV3.processes_of := agent_running;
     BotV3.endpoint_of := accepting;
     BotV3.disk_of := disk_ok |}.

(** [str.upper] restricted to ASCII text. *)
Definition ascii_upper (s : pystr) : pystr :=
  map (fun c => if (97 <=? c) && (c <=? 122) then c - 32 else c)%N s.

Definition finished : Notification.environ :=
  {| Notification.TELEGRAM_BOT_TOKEN := Some (lit "123:abc");
     Notification.CHAT_ID := Some (lit "12345");
     Notification.TASK_STATUS := Some (lit "success");
     Notification.TASK_RESULT := Some (lit "All tests pass") |}.

Definition reply : pystr :=
  lit "IMPLEMENTATION: check the tree" ++ NL ++
  lit "EXEC: git status  " ++ NL ++
  lit "  EXEC: ignored" ++ NL ++
  lit "SUMMARY: done".

End Sample.

(** * Properties *)

(** ** Strings *)

Section StringFacts.

Lemma startswith_app (p s : pystr) : startswith p (p ++ s) = true.
Proof.
  induction p as [|a p IH]; simpl; [done|].
  by rewrite N.eqb_refl, IH.
Qed.

Lemma startswith_inv (p s : pystr) :
  startswith p s = true -> exists post, s = p ++ post.
Proof.
  revert s. induction p as [|a p IH]; intros s H; simpl in *.
  - by exists s.
  - destruct s as [|b s]; [done|].
    apply andb_prop in H as [Hab Hps]. apply N.eqb_eq in Hab as ->.
    destruct (IH _ Hps) as [post ->]. by exists post.
Qed.

(** [sub in s] holds exactly when [s] splits around a copy of [sub]. *)
Lemma contains_spec (sub s : pystr) :
  contains sub s = true <-> exists pre post, s = pre ++ sub ++ post.
Proof.
  split.
  - induction s as [|c s IH]; simpl; intros H.
    + apply orb_prop in H as [H|H]; [|done].
      apply startswith_inv in H as [post ->]. by exists [], post.
    + apply orb_prop in H as [H|H].
      * apply startswith_inv in H as [post ->]. by exists [], post.
      * destruct (IH H) as (pre & post & ->). by exists (c :: pre), post.
  - intros (pre & post & ->).
    induction pre as [|c pre IH]; simpl.
    + assert (Hhere : forall t, startswith sub t = true ->
                                 contains sub t = true).
      { intros [|x t] Ht; simpl; by rewrite Ht. }
      apply Hhere, startswith_app.
    + rewrite IH. apply orb_true_r.
Qed.

(** Stripping on the left leaves everything from a non-space on. *)
Lemma lstrip_keeps (pre : pystr) (c : char) (rest : pystr) :
  isspace c = false ->
  exists pre', lstrip (pre ++ c :: rest) = pre' ++ c :: rest.
Proof.
  intros Hc. induction pre as [|a pre IH]; simpl.
  - rewrite Hc. by exists [].
  - destruct (isspace a); [apply IH|]. by exists (a :: pre).
Qed.

Lemma rstrip_keeps (init : pystr) (c : char) (post : pystr) :
  isspace c = false ->
  exists post', rstrip (init ++ c :: post) = init ++ c :: post'.
Proof.
  intros Hc. unfold rstrip.
  rewrite rev_app_distr. simpl. rewrite <- app_assoc. simpl.
  destruct (lstrip_keeps (rev post) c (rev init) Hc) as [post' ->].
  exists (rev post').
  rewrite rev_app_distr. simpl. rewrite rev_involutive.
  by rewrite <- app_assoc.
Qed.

(** A substring that starts and ends with a non-space survives [strip]. *)
Lemma contains_strip (a b : char) (mid s : pystr) (sub : pystr) :
  sub = a :: mid -> last sub = Some b ->
  isspace a = false -> isspace b = false ->
  contains sub s = true -> contains sub (strip s) = true.
Proof.
  intros Hsub Hlast Ha Hb H.
  apply contains_spec in H as (pre & post & ->).
  apply contains_spec. unfold strip.
  destruct (lstrip_keeps pre a (mid ++ post) Ha) as [pre' Hl].
  rewrite Hsub. simpl. rewrite Hl.
  apply last_Some in Hlast as [init Hinit].
  assert (Hsplit : pre' ++ a :: mid ++ post = (pre' ++ init) ++ b :: post).
  { rewrite <- app_assoc. f_equal.
    change (a :: mid ++ post) with ((a :: mid) ++ post).
    rewrite <- Hsub, Hinit, <- app_assoc. done. }
  rewrite Hsplit.
  destruct (rstrip_keeps (pre' ++ init) b post Hb) as [post' ->].
  exists pre', post'.
  rewrite <- app_assoc. f_equal.
  change (a :: mid ++ post') with ((a :: mid) ++ post').
  rewrite <- Hsub, Hinit, <- app_assoc. done.
Qed.

End StringFacts.

(** ** bot.py: sanitization *)

Section SanitizeFacts.

Import Bot.

Lemma skip_allowed_nil (s : pystr) :
  skip_allowed s = [] <-> forallb allowed_task_char s = true.
Proof.
  induction s as [|c s IH]; simpl; [done|].
  destruct (allowed_task_char c); simpl; [done|].
  split; discriminate.
Qed.

Lemma skip_allowed_head (s : pystr) (c : char) (rest : pystr) :
  skip_allowed s = c :: rest -> allowed_task_char c = false.
Proof.
  induction s as [|a s IH]; simpl; [done|].
  destruct (allowed_task_char a) eqn:Ha; [done|].
  intros [= <- _]. done.
Qed.

(** The pattern [^[...]+$] accepts exactly the non-empty strings made of
    class characters. *)
Lemma ALLOWED_TASK_CHARS_match_spec (s : pystr) :
  ALLOWED_TASK_CHARS_match s = true
  <-> s <> [] /\ forallb allowed_task_char s = true.
Proof.
  unfold ALLOWED_TASK_CHARS_match. split.
  - intros H. apply andb_prop in H as [Hlen Hend].
    destruct (skip_allowed s) as [|c rest] eqn:E.
    + split; [|by apply skip_allowed_nil].
      intros ->. simpl in Hlen. done.
    + exfalso. apply skip_allowed_head in E as Hc.
      destruct rest; [|done]. simpl in Hend.
      apply N.eqb_eq in Hend as ->. done.
  - intros [Hne Hall]. apply skip_allowed_nil in Hall as ->.
    destruct s; [done|]. done.
Qed.

Lemma allowed_no_char (c : char) (s : pystr) :
  allowed_task_char c = false ->
  forallb allowed_task_char s = true -> contains [c] s = false.
Proof.
  intros Hc Hall.
  destruct (contains [c] s) eqn:E; [|done]. exfalso.
  apply contains_spec in E as (pre & post & ->).
  rewrite forallb_app in Hall. apply andb_prop in Hall as [_ Hall].
  simpl in Hall. by rewrite Hc in Hall.
Qed.

(** What [sanitize_task_description] accepts, and what it returns then. *)
Lemma sanitize_accepts (raw : pystr) :
  strip raw <> [] ->
  (length (strip raw) <= MAX_TASK_DESCRIPTION_LENGTH)%nat ->
  forallb allowed_task_char (strip raw) = true ->
  contains (lit "..") (strip raw) = false ->
  sanitize_task_description raw = inr (strip raw).
Proof.
  intros Hne Hlen Hall Hdots. unfold sanitize_task_description.
  destruct (Nat.ltb_spec MAX_TASK_DESCRIPTION_LENGTH (length (strip raw)))
    as [Hlt|_]; [lia|].
  assert (Hm : ALLOWED_TASK_CHARS_match (strip raw) = true)
    by by apply ALLOWED_TASK_CHARS_match_spec.
  rewrite Hm. simpl negb. cbv iota.
  change (lit "/") with [47%N]. change (lit "\") with [92%N].
  rewrite !allowed_no_char by done.
  by rewrite Hdots.
Qed.

Lemma sanitize_too_long (raw : pystr) :
  (MAX_TASK_DESCRIPTION_LENGTH < length (strip raw))%nat ->
  sanitize_task_description raw = inl too_long.
Proof.
  intros Hlen. unfold sanitize_task_description.
  destruct (Nat.ltb_spec MAX_TASK_DESCRIPTION_LENGTH (length (strip raw)));
    [done|lia].
Qed.

(** A description that contains a separator or [..] is refused, whichever
    check meets it first. *)
Lemma sanitize_rejects_paths (raw : pystr) :
  contains (lit "/") raw || contains (lit "\") raw
  || contains (lit "..") raw = true ->
  exists e, sanitize_task_description raw = inl e.
Proof.
  intros H. unfold sanitize_task_description.
  destruct (_ <? _)%nat; [by eexists|].
  destruct (negb _); [by eexists|].
  assert (Hs : contains (lit "/") (strip raw)
               || contains (lit "\") (strip raw)
               || contains (lit "..") (strip raw) = true).
  { apply orb_prop in H as [H|H]; [apply orb_prop in H as [H|H]|].
    - rewrite (contains_strip 47%N 47%N [] raw (lit "/")); done.
    - rewrite (contains_strip 92%N 92%N [] raw (lit "\")); try done.
      by rewrite orb_true_r.
    - rewrite (contains_strip 46%N 46%N [46%N] raw (lit "..")); try done.
      apply orb_true_r. }
  rewrite Hs. by eexists.
Qed.

End SanitizeFacts.

(** ** bot.py: task creation *)

Section CreateTask.

Import Bot.

Variable AUTHORIZED_USER_ID : option pystr.

Lemma create_task_sanitized (now : clock) (u : update) (w : world)
    (description : pystr) :
  is_authorized AUTHORIZED_USER_ID (effective_user_id u) = true ->
  sanitize_task_description (raw_description u) = inr description ->
  strip (raw_description u) <> [] ->
  create_task AUTHORIZED_USER_ID now u w = creation_effects now description.
Proof.
  intros Hauth Hsan Hne. unfold create_task, raw_description in *.
  rewrite Hauth. simpl negb. cbv iota.
  destruct (args u) as [|a rest] eqn:E; [done|].
  by rewrite Hsan.
Qed.

Lemma create_task_refused (now : clock) (u : update) (w : world)
    (e : ValueError) :
  is_authorized AUTHORIZED_USER_ID (effective_user_id u) = true ->
  args u <> [] ->
  sanitize_task_description (raw_description u) = inl e ->
  create_task AUTHORIZED_USER_ID now u w = [reply_text (ValidationFailed e)].
Proof.
  intros Hauth Hargs Hsan. unfold create_task, raw_description in *.
  rewrite Hauth. simpl negb. cbv iota.
  destruct (args u) as [|a rest] eqn:E; [done|].
  by rewrite Hsan.
Qed.

(** Running the effects of a successful creation never fails, whether or
    not the tasks directory existed. *)
Lemma run_creation_effects (now : clock) (description : pystr) (w : world) :
  exists w' files,
    run (creation_effects now description) w = Some w'
    /\ TASKS_DIR w' = Some files
    /\ files !! task_file_name now = Some (task_content now description)
    /\ STATUS_FILE w' = Some (status_content now description)
    /\ APPROVAL_FILE w' = APPROVAL_FILE w
    /\ RESPONSE_FILE w' = RESPONSE_FILE w.
Proof.
  unfold creation_effects. simpl.
  destruct (TASKS_DIR w) as [files|] eqn:E; simpl; rewrite ?E; simpl;
    eexists _, _; repeat split; simpl; by rewrite ?lookup_insert_eq.
Qed.

(** C3. For every description that is valid after sanitization (not empty,
    at most [MAX_TASK_DESCRIPTION_LENGTH] characters, only characters of
    the allowed class, no [..]; the separators [/] and [\] lie outside the
    class), task creation by the authorized user succeeds: sanitization
    returns the stripped input, and the run writes, under the name made
    from the timestamp, a task file whose description section is exactly
    that text, between the heading and the instructions; the status file
    names the same text as its task. *)
Theorem valid_description_is_stored
    (now : clock) (u : update) (w : world) :
  is_authorized AUTHORIZED_USER_ID (effective_user_id u) = true ->
  strip (raw_description u) <> [] ->
  (length (strip (raw_description u)) <= MAX_TASK_DESCRIPTION_LENGTH)%nat ->
  forallb allowed_task_char (strip (raw_description u)) = true ->
  contains (lit "..") (strip (raw_description u)) = false ->
  sanitize_task_description (raw_description u)
    = inr (strip (raw_description u))
  /\ create_task AUTHORIZED_USER_ID now u w
     = creation_effects now (strip (raw_description u))
  /\ exists w' files,
       run (create_task AUTHORIZED_USER_ID now u w) w = Some w'
       /\ TASKS_DIR w' = Some files
       /\ files !! (lit "telegram_" ++ timestamp now ++ lit ".md")
          = Some (lit "# Task from Telegram" ++ NL ++ NL ++
                  lit "**Created:** " ++ created now ++ NL ++
                  lit "**Status:** pending" ++ NL ++ NL ++
                  lit "## Description" ++ NL ++
                  strip (raw_description u) ++ NL ++ NL ++
                  lit "## Instructions" ++ NL ++
                  lit "Execute autonomously. Report progress to status file."
                  ++ NL)
       /\ STATUS_FILE w'
          = Some ([128994%N] ++ lit " New Task" ++ NL ++ NL ++
                  lit "Task: " ++ strip (raw_description u) ++ NL ++
                  lit "Started: " ++ started now ++ NL ++
                  lit "File: "
                  ++ (lit "telegram_" ++ timestamp now ++ lit ".md") ++ NL)
       /\ APPROVAL_FILE w' = APPROVAL_FILE w
       /\ RESPONSE_FILE w' = RESPONSE_FILE w.
Proof.
  intros Hauth Hne Hlen Hall Hdots.
  pose proof (sanitize_accepts _ Hne Hlen Hall Hdots) as Hsan.
  pose proof (create_task_sanitized now u w _ Hauth Hsan Hne) as Hct.
  split; [done|]. split; [done|]. rewrite Hct.
  destruct (run_creation_effects now (strip (raw_description u)) w)
    as (w' & files & Hrun & Hdir & Hfile & Hstatus & Happroval & Hresponse).
  by exists w', files.
Qed.

(** C4. A description that contains [/], [\] or [..] makes task creation
    fail with a validation error, and nothing is written: the only effect
    is the error reply, and the world is left as it was. *)
Theorem path_description_is_refused
    (now : clock) (u : update) (w : world) :
  is_authorized AUTHORIZED_USER_ID (effective_user_id u) = true ->
  contains (lit "/") (raw_description u)
  || contains (lit "\") (raw_description u)
  || contains (lit "..") (raw_description u) = true ->
  (exists e, create_task AUTHORIZED_USER_ID now u w
             = [reply_text (ValidationFailed e)])
  /\ run (create_task AUTHORIZED_USER_ID now u w) w = Some w.
Proof.
  intros Hauth Hpath.
  assert (Hargs : args u <> []).
  { intros E. unfold raw_description in Hpath. by rewrite E in Hpath. }
  destruct (sanitize_rejects_paths _ Hpath) as [e He].
  rewrite (create_task_refused now u w e Hauth Hargs He).
  split; [by exists e|done].
Qed.

(** C9, as the code has it. Lengths are taken after surrounding whitespace
    is stripped: with [MAX_TASK_DESCRIPTION_LENGTH + 1] characters left,
    creation fails as too long; with exactly [MAX_TASK_DESCRIPTION_LENGTH]
    characters left, all of the allowed class and without [..], it
    succeeds and stores that text. *)
Theorem length_boundary (now : clock) (u : update) (w : world) :
  is_authorized AUTHORIZED_USER_ID (effective_user_id u) = true ->
  (length (strip (raw_description u)) = S MAX_TASK_DESCRIPTION_LENGTH ->
   create_task AUTHORIZED_USER_ID now u w
   = [reply_text (ValidationFailed too_long)])
  /\ (length (strip (raw_description u)) = MAX_TASK_DESCRIPTION_LENGTH ->
      forallb allowed_task_char (strip (raw_description u)) = true ->
      contains (lit "..") (strip (raw_description u)) = false ->
      create_task AUTHORIZED_USER_ID now u w
      = creation_effects now (strip (raw_description u))
      /\ exists w', run (create_task AUTHORIZED_USER_ID now u w) w
                    = Some w').
Proof.
  intros Hauth. split.
  - intros Hlen.
    apply create_task_refused; [done| |].
    + intros E. unfold raw_description in Hlen. by rewrite E in Hlen.
    + apply sanitize_too_long. lia.
  - intros Hlen Hall Hdots.
    assert (Hne : strip (raw_description u) <> []).
    { intros E. by rewrite E in Hlen. }
    assert (Hmax : (length (strip (raw_description u))
                    <= MAX_TASK_DESCRIPTION_LENGTH)%nat) by lia.
    pose proof (sanitize_accepts _ Hne Hmax Hall Hdots) as Hsan.
    rewrite (create_task_sanitized now u w _ Hauth Hsan Hne).
    split; [done|].
    destruct (run_creation_effects now (strip (raw_description u)) w)
      as (w' & _ & Hrun & _).
    by exists w'.
Qed.

End CreateTask.

Lemma valid_description_is_stored_witness :
  let u := Sample.from_owner [lit "fix"; lit "the"; lit "parser"] in
  Bot.sanitize_task_description (Bot.raw_description u)
    = inr (lit "fix the parser")
  /\ exists w' files,
       run (Bot.create_task Sample.owner Sample.noon u empty_world)
           empty_world = Some w'
       /\ TASKS_DIR w' = Some files
       /\ files !! lit "telegram_20240101_120000_000001.md"
          = Some (lit "# Task from Telegram" ++ NL ++ NL ++
                  lit "**Created:** 2024-01-01T12:00:00.000002" ++ NL ++
                  lit "**Status:** pending" ++ NL ++ NL ++
                  lit "## Description" ++ NL ++
                  lit "fix the parser" ++ NL ++ NL ++
                  lit "## Instructions" ++ NL ++
                  lit "Execute autonomously. Report progress to status file."
                  ++ NL).
Proof.
  intros u.
  destruct (valid_description_is_stored Sample.owner Sample.noon u
              empty_world)
    as (Hsan & _ & w' & files & Hrun & Hdir & Hfile & _).
  - vm_compute. reflexivity.
  - vm_compute. discriminate.
  - vm_compute. lia.
  - vm_compute. reflexivity.
  - vm_compute. reflexivity.
  - split; [exact Hsan|]. exists w', files. repeat split; assumption.
Defined.

Lemma path_description_is_refused_witness :
  let u := Sample.from_owner [lit "read"; lit "../secrets"] in
  (exists e, Bot.create_task Sample.owner Sample.noon u empty_world
             = [reply_text (ValidationFailed e)])
  /\ run (Bot.create_task Sample.owner Sample.noon u empty_world)
         empty_world = Some empty_world.
Proof.
  intros u.
  apply (path_description_is_refused Sample.owner Sample.noon u empty_world).
  - vm_compute. reflexivity.
  - vm_compute. reflexivity.
Defined.

(** C9 as stated fails on both sides. Five hundred dots are exactly
    [MAX_TASK_DESCRIPTION_LENGTH] characters of the allowed class, and are
    refused for containing [..]; a space followed by five hundred letters is
    [MAX_TASK_DESCRIPTION_LENGTH + 1] characters, and is accepted once the
    space is stripped. *)
Lemma length_boundary_counterexample :
  (length Sample.dots = Bot.MAX_TASK_DESCRIPTION_LENGTH
   /\ forallb Bot.allowed_task_char Sample.dots = true
   /\ Bot.create_task Sample.owner Sample.noon
        (Sample.from_owner [Sample.dots]) empty_world
      = [reply_text (ValidationFailed path_separators)])
  /\ (length (32%N :: Sample.letters) = S Bot.MAX_TASK_DESCRIPTION_LENGTH
      /\ Bot.sanitize_task_description (32%N :: Sample.letters)
         = inr Sample.letters
      /\ Bot.create_task Sample.owner Sample.noon
           (Sample.from_owner [32%N :: Sample.letters]) empty_world
         = Bot.creation_effects Sample.noon Sample.letters).
Proof. vm_compute. repeat split. Qed.

Lemma length_boundary_witness :
  Bot.create_task Sample.owner Sample.noon
    (Sample.from_owner [Sample.letters ++ [97%N]]) empty_world
  = [reply_text (ValidationFailed too_long)]
  /\ Bot.create_task Sample.owner Sample.noon
       (Sample.from_owner [Sample.letters]) empty_world
     = Bot.creation_effects Sample.noon Sample.letters.
Proof.
  split.
  - apply (length_boundary Sample.owner Sample.noon
             (Sample.from_owner [Sample.letters ++ [97%N]]) empty_world).
    + vm_compute. reflexivity.
    + vm_compute. reflexivity.
  - apply (length_boundary Sample.owner Sample.noon
             (Sample.from_owner [Sample.letters]) empty_world).
    + vm_compute. reflexivity.
    + vm_compute. reflexivity.
    + vm_compute. reflexivity.
    + vm_compute. reflexivity.
Defined.

(** ** bot.py: the approval gate *)

Section ApprovalGate.

Import Bot.

Variable AUTHORIZED_USER_ID : option pystr.

(** The worlds seen while a resolution is written to an open gate: the
    response file is written first, the approval file is removed next. *)
Lemma trace_resolution (resolution : pystr) (done : message) (w : world) :
  is_Some (APPROVAL_FILE w) ->
  trace [write_RESPONSE_FILE resolution; unlink_APPROVAL_FILE;
         reply_text done] w
  = [ w;
      set_RESPONSE_FILE (Some resolution) w;
      set_APPROVAL_FILE None (set_RESPONSE_FILE (Some resolution) w);
      set_APPROVAL_FILE None (set_RESPONSE_FILE (Some resolution) w) ].
Proof. intros [a Ha]. simpl. by rewrite Ha. Qed.

(** C2, as the code has it. For the authorized user, [approve] and [reject]
    write nothing when the gate is closed. When it is open they take two
    steps: first the resolution is written to the response file while the
    approval file is still there, then the approval file is removed; the
    run ends with the gate closed and the resolution in the response
    file. *)
Theorem resolve_in_two_steps (u : update) (w : world) :
  is_authorized AUTHORIZED_USER_ID (effective_user_id u) = true ->
  (APPROVAL_FILE w = None ->
   trace (approve AUTHORIZED_USER_ID u w) w = [w; w]
   /\ trace (reject AUTHORIZED_USER_ID u w) w = [w; w])
  /\ (is_Some (APPROVAL_FILE w) ->
      let approved := set_RESPONSE_FILE (Some (lit "APPROVED")) w in
      let rejected := set_RESPONSE_FILE (Some (lit "REJECTED")) w in
      trace (approve AUTHORIZED_USER_ID u w) w
      = [w; approved; set_APPROVAL_FILE None approved;
         set_APPROVAL_FILE None approved]
      /\ run (approve AUTHORIZED_USER_ID u w) w
         = Some (set_APPROVAL_FILE None approved)
      /\ trace (reject AUTHORIZED_USER_ID u w) w
         = [w; rejected; set_APPROVAL_FILE None rejected;
            set_APPROVAL_FILE None rejected]
      /\ run (reject AUTHORIZED_USER_ID u w) w
         = Some (set_APPROVAL_FILE None rejected)).
Proof.
  intros Hauth. unfold approve, reject. rewrite Hauth. simpl negb. cbv iota.
  split.
  - intros ->. done.
  - intros Hopen. cbv zeta.
    pose proof (trace_resolution (lit "APPROVED") Approved w Hopen) as Ha.
    pose proof (trace_resolution (lit "REJECTED") Rejected w Hopen) as Hr.
    destruct Hopen as [a Hopen]. rewrite Hopen.
    repeat split; try done; simpl; by rewrite Hopen.
Qed.

(** Whoever is not the authorized user gets nothing done by [bot.py]:
    [/start] answers with a refusal and every other command is dropped. *)
Lemma unauthorized_is_dropped (now : clock) (u : update) (w : world) :
  is_authorized AUTHORIZED_USER_ID (effective_user_id u) = false ->
  start AUTHORIZED_USER_ID u w = [reply_text Unauthorized]
  /\ ping AUTHORIZED_USER_ID u w = []
  /\ status AUTHORIZED_USER_ID u w = []
  /\ create_task AUTHORIZED_USER_ID now u w = []
  /\ approve AUTHORIZED_USER_ID u w = []
  /\ reject AUTHORIZED_USER_ID u w = [].
Proof.
  intros Hauth.
  unfold start, ping, status, create_task, approve, reject.
  by rewrite Hauth.
Qed.

(** So no handler of [bot.py] changes the world for such a user. *)
Lemma unauthorized_is_inert (now : clock) (u : update) (w : world) :
  is_authorized AUTHORIZED_USER_ID (effective_user_id u) = false ->
  Forall (fun effs => existsb mutates effs = false /\ run effs w = Some w)
    [ start AUTHORIZED_USER_ID u w; ping AUTHORIZED_USER_ID u w;
      status AUTHORIZED_USER_ID u w; create_task AUTHORIZED_USER_ID now u w;
      approve AUTHORIZED_USER_ID u w; reject AUTHORIZED_USER_ID u w ].
Proof.
  intros Hauth.
  destruct (unauthorized_is_dropped now u w Hauth)
    as (-> & -> & -> & -> & -> & ->).
  repeat constructor.
Qed.

End ApprovalGate.

Lemma resolve_in_two_steps_witness :
  let u := Sample.from_owner [] in
  let approved :=
    set_RESPONSE_FILE (Some (lit "APPROVED")) Sample.gate_open in
  trace (Bot.approve Sample.owner u empty_world) empty_world
  = [empty_world; empty_world]
  /\ trace (Bot.approve Sample.owner u Sample.gate_open) Sample.gate_open
     = [Sample.gate_open; approved; set_APPROVAL_FILE None approved;
        set_APPROVAL_FILE None approved].
Proof.
  intros u approved. split.
  - apply (resolve_in_two_steps Sample.owner u empty_world).
    + vm_compute. reflexivity.
    + reflexivity.
  - apply (resolve_in_two_steps Sample.owner u Sample.gate_open).
    + vm_compute. reflexivity.
    + simpl. eexists. reflexivity.
Defined.

(** C2 as stated fails: while [approve] runs on an open gate, the world
    after its first step holds [APPROVED] in the response file and still
    has the approval file. *)
Lemma resolve_counterexample :
  RESPONSE_FILE Sample.gate_open = None
  /\ ~ Bot.resolves_atomically
         (Bot.approve Sample.owner (Sample.from_owner []) Sample.gate_open)
         Sample.gate_open.
Proof.
  split; [reflexivity|].
  intros H. unfold Bot.resolves_atomically in H.
  apply Forall_cons in H as [_ H]. apply Forall_cons in H as [H _].
  vm_compute in H. discriminate.
Qed.

(** ** bot_v3.py: mode resolution *)

Section ModeSelector.

Import BotV3.

Variable lower : pystr -> pystr.

(** With every name readable the signature test has an answer. *)
Lemma agent_signature_named (proc : process) :
  is_Some (name proc) -> is_Some (agent_signature lower proc).
Proof.
  intros [n Hn]. unfold agent_signature. rewrite Hn.
  by destruct (contains _ _).
Qed.

(** On such a table the probe loop answers [local] exactly when some listed
    process carries the agent signature, and [cloud] otherwise. *)
Lemma detect_execution_mode_named (procs : list process) :
  all_named procs ->
  detect_execution_mode lower procs
  = Some (if existsb (fun proc => default false
                                    (agent_signature lower proc)) procs
          then local else cloud).
Proof.
  induction 1 as [|proc procs Hproc _ IH]; simpl; [done|].
  destruct (agent_signature_named proc Hproc) as [[|] ->]; simpl;
    [done|exact IH].
Qed.

(** The probe answers [cloud] only after looking at every process and
    finding a readable name without the signature each time. *)
Lemma detect_cloud_iff (procs : list process) :
  detect_execution_mode lower procs = Some cloud
  <-> Forall (fun proc => agent_signature lower proc = Some false) procs.
Proof.
  induction procs as [|proc procs IH]; simpl.
  - split; [constructor|done].
  - destruct (agent_signature lower proc) as [[|]|] eqn:E.
    + split; [done|]. intros H. apply Forall_cons in H as [H _].
      simpl in H. congruence.
    + rewrite IH. split; [by constructor|].
      intros H. by apply Forall_cons in H as [_ H].
    + split; [done|]. intros H. apply Forall_cons in H as [H _].
      simpl in H. congruence.
Qed.

Lemma execution_mode_resolved (procs : list process) (chat : Z) (w : world)
    (detected : backend) :
  detect_execution_mode lower procs = Some detected ->
  execution_mode lower procs chat w
  = Some (default detected (user_execution_mode w !! chat)).
Proof. unfold execution_mode. by intros ->. Qed.

Lemma execution_mode_raises (procs : list process) (chat : Z) (w : world) :
  detect_execution_mode lower procs = None ->
  execution_mode lower procs chat w = None.
Proof. unfold execution_mode. by intros ->. Qed.

(** [/auto] stores the probe's answer of that moment under the chat, and a
    later task of the same chat uses the stored answer rather than the
    process table of its own moment. *)
Lemma auto_mode_stores_probe (procs later : list process) (u : update)
    (w : world) (detected seen : backend) :
  detect_execution_mode lower procs = Some detected ->
  detect_execution_mode lower later = Some seen ->
  run (auto_mode lower procs u w) w
  = Some (set_modes (<[effective_chat_id u := detected]>
                       (user_execution_mode w)) w)
  /\ execution_mode lower later (effective_chat_id u)
       (set_modes (<[effective_chat_id u := detected]>
                     (user_execution_mode w)) w)
     = Some detected.
Proof.
  intros Hprocs Hlater. unfold auto_mode. rewrite Hprocs.
  split; [done|]. rewrite (execution_mode_resolved _ _ _ _ Hlater). simpl.
  by rewrite lookup_insert_eq.
Qed.

End ModeSelector.

(** C6 fails on the code when a process name cannot be read. The probe
    handles a missing command line (the [or []]) and not a missing name:
    with such a process listed first, [detect_execution_mode] raises, and
    so does [/task], for a chat without a stored mode and also for a chat
    pinned to [cloud], since the probe runs before the stored mode is
    looked up; no reply is sent and nothing is dispatched. With the same
    processes in the other order the agent is found first and the answer
    is [local]. *)
Theorem unreadable_name_breaks_resolution :
  let submitting := Sample.from_owner [lit "deploy"] in
  let procs := Sample.denied :: Sample.agent_running in
  BotV3.detect_execution_mode ascii_lower procs = None
  /\ user_execution_mode Sample.cloud_pinned !! (12345 : Z) = Some cloud
  /\ BotV3.execution_mode ascii_lower procs 12345 Sample.cloud_pinned = None
  /\ BotV3.task_command ascii_lower Sample.token procs Sample.accepting
       Sample.disk_ok submitting Sample.cloud_pinned
     = [uncaught AttributeError]
  /\ run (BotV3.task_command ascii_lower Sample.token procs Sample.accepting
            Sample.disk_ok submitting Sample.cloud_pinned)
         Sample.cloud_pinned = None
  /\ BotV3.task_command ascii_lower Sample.token procs Sample.accepting
       Sample.disk_ok submitting empty_world
     = [uncaught AttributeError]
  /\ BotV3.detect_execution_mode ascii_lower (rev procs) = Some local.
Proof. vm_compute. repeat split. Qed.

(** C7 fails on the code after [/auto]. With no agent process running,
    [/auto] stores [cloud] for the chat; when the agent is running at the
    time of the next task, the probe of that moment says [local], yet the
    task is queued for and sent to the cloud, and [/status] shows [cloud]
    as the current setting where an unset chat shows [auto]. Without
    [/auto], the same task in the same moment goes to the local agent. *)
Theorem auto_mode_freezes_probe :
  let selecting := Sample.from_owner [] in
  let submitting := Sample.from_owner [lit "run"; lit "tests"] in
  exists w1,
    run (BotV3.auto_mode ascii_lower Sample.no_agent selecting empty_world)
        empty_world = Some w1
    /\ BotV3.detect_execution_mode ascii_lower Sample.agent_running
       = Some local
    /\ BotV3.task_command ascii_lower Sample.token Sample.agent_running
         Sample.accepting Sample.disk_ok submitting w1
       = [ reply_text (TaskQueued cloud (lit "run tests"));
           requests_post (BotV3.build_request Sample.token 12345
                            (lit "run tests") 7);
           reply_text CloudTriggered ]
    /\ BotV3.status_command ascii_lower Sample.token Sample.agent_running
         selecting w1
       = [ reply_text (ModeStatus (Some cloud) local true cloud) ]
    /\ BotV3.task_command ascii_lower Sample.token Sample.agent_running
         Sample.accepting Sample.disk_ok submitting empty_world
       = [ reply_text (TaskQueued local (lit "run tests"));
           write_pending_task (lit "run tests");
           reply_text LocalSent ].
Proof.
  eexists. split; [reflexivity|]. vm_compute. repeat split.
Qed.

(** ** bot_v3.py: dispatch *)

Section Dispatcher.

Import BotV3.

Variable lower : pystr -> pystr.
Variable GITHUB_TOKEN : option pystr.

Lemma trigger_github_actions_spec (post : dispatch_request -> http_outcome)
    (chat : Z) (task_description : pystr) (message : Z) :
  let req := build_request GITHUB_TOKEN chat task_description message in
  trigger_github_actions GITHUB_TOKEN post chat task_description message
  = ( truthy GITHUB_TOKEN
      && match post req with
         | response status_code _ => status_code =? 204
         | raised => false
         end,
      if truthy GITHUB_TOKEN then [requests_post req] else [] ).
Proof.
  unfold trigger_github_actions.
  destruct (truthy GITHUB_TOKEN); simpl; [|done].
  destruct (post _) as [|code text]; [done|].
  by destruct (code =? 204).
Qed.

(** What [task_command] does with a task once the mode is resolved: it
    announces the mode and hands the description to the backend of that
    mode. *)
Lemma task_command_dispatch (procs : list process)
    (post : dispatch_request -> http_outcome)
    (write : pystr -> write_outcome) (u : update) (w : world)
    (mode : backend) :
  args u <> [] ->
  execution_mode lower procs (effective_chat_id u) w = Some mode ->
  let triggered :=
    trigger_github_actions GITHUB_TOKEN post (effective_chat_id u)
      (Bot.raw_description u) (update_message_id u) in
  let sent := trigger_local_execution write (Bot.raw_description u) in
  task_command lower GITHUB_TOKEN procs post write u w
  = reply_text (TaskQueued mode (Bot.raw_description u))
    :: match mode with
       | local => sent.2
                  ++ [reply_text (if sent.1 then LocalSent else LocalFailed)]
       | cloud => triggered.2
                  ++ [reply_text (if triggered.1 then CloudTriggered
                                  else CloudFailed)]
       end.
Proof.
  intros Hargs Hmode triggered sent. unfold task_command. rewrite Hmode.
  destruct (args u) as [|a rest] eqn:E; [done|]. rewrite <- E.
  fold (Bot.raw_description u). fold triggered. fold sent.
  destruct mode; [by destruct sent|by destruct triggered].
Qed.

(** When the probe raises, so does [task_command], before its first
    reply. *)
Lemma task_command_raises (procs : list process)
    (post : dispatch_request -> http_outcome)
    (write : pystr -> write_outcome) (u : update) (w : world) :
  args u <> [] ->
  execution_mode lower procs (effective_chat_id u) w = None ->
  task_command lower GITHUB_TOKEN procs post write u w
  = [uncaught AttributeError].
Proof.
  intros Hargs Hmode. unfold task_command. rewrite Hmode.
  by destruct (args u).
Qed.

Lemma run_app (effs effs' : list effect) (w : world) :
  run (effs ++ effs') w
  = match run effs w with
    | Some w' => run effs' w'
    | None => None
    end.
Proof.
  revert w. induction effs as [|e effs IH]; intros w; simpl; [done|].
  destruct (exec e w); [apply IH|done].
Qed.

(** What the local trigger leaves behind, whatever the disk does. *)
Lemma trigger_local_execution_run (write : pystr -> write_outcome)
    (task_description : pystr) (w : world) :
  exists w',
    run (trigger_local_execution write task_description).2 w = Some w'
    /\ pending_task w'
       = match write task_description with
         | written => Some task_description
         | write_failed (Some remains) => Some remains
         | write_failed None => pending_task w
         end
    /\ STATUS_FILE w' = STATUS_FILE w
    /\ APPROVAL_FILE w' = APPROVAL_FILE w
    /\ RESPONSE_FILE w' = RESPONSE_FILE w
    /\ TASKS_DIR w' = TASKS_DIR w
    /\ user_execution_mode w' = user_execution_mode w.
Proof.
  unfold trigger_local_execution.
  destruct (write task_description) as [|[remains|]]; simpl;
    eexists; (split; [reflexivity|]); done.
Qed.

(** C8. The cloud trigger reports success exactly when the credential is
    present and the endpoint answers with status 204; a missing credential,
    a raised exception or any other status makes it report failure. *)
Theorem cloud_dispatch_success_iff (post : dispatch_request -> http_outcome)
    (chat : Z) (task_description : pystr) (message : Z) :
  (trigger_github_actions GITHUB_TOKEN post chat task_description message).1
  = true
  <-> truthy GITHUB_TOKEN = true
      /\ exists text,
           post (build_request GITHUB_TOKEN chat task_description message)
           = response 204 text.
Proof.
  rewrite trigger_github_actions_spec. simpl. split.
  - intros H. apply andb_prop in H as [Htok Hpost]. split; [done|].
    destruct (post _) as [|code text]; [done|].
    apply Z.eqb_eq in Hpost as ->. by exists text.
  - intros [-> [text ->]]. done.
Qed.

(** C5, as the code has it. When the mode of the chat resolves to [cloud]
    and the transport fails (no credential, an exception, or a status other
    than 204), the trigger reports failure, the handler sends the queued
    notice and then the failure message once, the request is posted at most
    once (not at all without a credential), and the world is left as it
    was: no status is stored anywhere. *)
Theorem cloud_failure_reported (procs : list process)
    (post : dispatch_request -> http_outcome)
    (write : pystr -> write_outcome) (u : update) (w : world) :
  let chat := effective_chat_id u in
  let task_description := Bot.raw_description u in
  let req :=
    build_request GITHUB_TOKEN chat task_description (update_message_id u) in
  args u <> [] ->
  execution_mode lower procs chat w = Some cloud ->
  (truthy GITHUB_TOKEN = false
   \/ post req = raised
   \/ exists status_code text,
        post req = response status_code text /\ status_code <> 204) ->
  (trigger_github_actions GITHUB_TOKEN post chat task_description
                          (update_message_id u)).1 = false
  /\ task_command lower GITHUB_TOKEN procs post write u w
     = reply_text (TaskQueued cloud task_description)
       :: (if truthy GITHUB_TOKEN then [requests_post req] else [])
       ++ [reply_text CloudFailed]
  /\ length (filter (fun e => is_failure_reply e = true)
                    (task_command lower GITHUB_TOKEN procs post write u w))
     = 1%nat
  /\ (length (filter (fun e => is_post e = true)
                     (task_command lower GITHUB_TOKEN procs post write u w))
      <= 1)%nat
  /\ run (task_command lower GITHUB_TOKEN procs post write u w) w = Some w.
Proof.
  intros chat task_description req Hargs Hmode Hfail.
  assert (Hres : (trigger_github_actions GITHUB_TOKEN post chat
                    task_description (update_message_id u)).1 = false).
  { rewrite trigger_github_actions_spec. simpl. fold req.
    destruct Hfail as [->|[->|(code & text & -> & Hcode)]]; [done| |].
    - apply andb_false_r.
    - apply Z.eqb_neq in Hcode as ->. apply andb_false_r. }
  assert (Htc : task_command lower GITHUB_TOKEN procs post write u w
                = reply_text (TaskQueued cloud task_description)
                  :: (if truthy GITHUB_TOKEN then [requests_post req] else [])
                  ++ [reply_text CloudFailed]).
  { rewrite (task_command_dispatch procs post write u w cloud Hargs Hmode).
    fold chat task_description.
    revert Hres. rewrite trigger_github_actions_spec. simpl. fold req.
    by intros ->. }
  split; [done|]. split; [done|]. rewrite Htc.
  destruct (truthy GITHUB_TOKEN); repeat split; simpl; done || lia.
Qed.

(** C10, as the code has it. A local dispatch whose write succeeds reports
    success and leaves the task description, and nothing before it, in the
    one exchange file, with every other artifact and the mode dictionary
    as they were. After any run of local dispatches, whatever became of
    the earlier ones, a last dispatch that succeeds leaves the file
    holding its description only. A dispatch whose write fails reports
    failure; the file is then as it was, or, when the failure came after
    the file was opened, holds what got written. *)
Theorem local_dispatch_overwrites
    (earlier : list ((pystr -> write_outcome) * pystr))
    (write : pystr -> write_outcome) (d : pystr) (w : world) :
  (write d = written ->
   (trigger_local_execution write d).1 = true
   /\ (exists w',
         run (trigger_local_execution write d).2 w = Some w'
         /\ pending_task w' = Some d
         /\ STATUS_FILE w' = STATUS_FILE w
         /\ APPROVAL_FILE w' = APPROVAL_FILE w
         /\ RESPONSE_FILE w' = RESPONSE_FILE w
         /\ TASKS_DIR w' = TASKS_DIR w
         /\ user_execution_mode w' = user_execution_mode w)
   /\ (exists w',
         run (concat (map (fun dispatch =>
                             (trigger_local_execution dispatch.1
                                                      dispatch.2).2)
                          (earlier ++ [(write, d)]))) w = Some w'
         /\ pending_task w' = Some d))
  /\ (forall remains, write d = write_failed remains ->
      (trigger_local_execution write d).1 = false
      /\ exists w',
           run (trigger_local_execution write d).2 w = Some w'
           /\ pending_task w' = match remains with
                                | Some text => Some text
                                | None => pending_task w
                                end).
Proof.
  split.
  - intros Hwrite.
    split; [unfold trigger_local_execution; by rewrite Hwrite|].
    split.
    + destruct (trigger_local_execution_run write d w)
        as (w' & Hrun & Hpending & Hframe).
      rewrite Hwrite in Hpending. by exists w'.
    + revert w. induction earlier as [|[wr task] earlier IH]; intros w.
      * simpl. rewrite app_nil_r.
        destruct (trigger_local_execution_run write d w)
          as (w' & Hrun & Hpending & _).
        rewrite Hwrite in Hpending. by exists w'.
      * simpl. rewrite run_app.
        destruct (trigger_local_execution_run wr task w) as (w1 & -> & _).
        apply IH.
  - intros remains Hwrite.
    split; [unfold trigger_local_execution; rewrite Hwrite;
            by destruct remains|].
    destruct (trigger_local_execution_run write d w)
      as (w' & Hrun & Hpending & _).
    rewrite Hwrite in Hpending. exists w'. by destruct remains.
Qed.

End Dispatcher.

Lemma cloud_failure_reported_witness :
  let u := Sample.from_owner [lit "deploy"] in
  BotV3.task_command ascii_lower Sample.token Sample.no_agent
    Sample.unreachable Sample.disk_ok u empty_world
  = [ reply_text (TaskQueued cloud (lit "deploy"));
      requests_post (BotV3.build_request Sample.token 12345 (lit "deploy") 7);
      reply_text CloudFailed ]
  /\ run (BotV3.task_command ascii_lower Sample.token Sample.no_agent
            Sample.unreachable Sample.disk_ok u empty_world) empty_world
     = Some empty_world.
Proof.
  intros u.
  destruct (cloud_failure_reported ascii_lower Sample.token Sample.no_agent
              Sample.unreachable Sample.disk_ok u empty_world)
    as (_ & Heffs & _ & _ & Hrun).
  - vm_compute. discriminate.
  - vm_compute. reflexivity.
  - right. left. reflexivity.
  - split; [exact Heffs|exact Hrun].
Defined.

(** C5 as stated fails: a cloud dispatch to an unreachable endpoint reports
    failure, and afterwards no stored artifact records a [failed] status,
    since the handler has written nothing. *)
Lemma cloud_failure_counterexample :
  let u := Sample.from_owner [lit "deploy"] in
  (BotV3.trigger_github_actions Sample.token Sample.unreachable 12345
     (lit "deploy") 7).1 = false
  /\ exists w',
       run (BotV3.task_command ascii_lower Sample.token Sample.no_agent
              Sample.unreachable Sample.disk_ok u empty_world) empty_world
       = Some w'
       /\ w' = empty_world
       /\ BotV3.failed_status_stored w' = false.
Proof.
  intros u. split; [vm_compute; reflexivity|].
  exists empty_world. split; [vm_compute; reflexivity|].
  split; [reflexivity|]. vm_compute. reflexivity.
Qed.

(** ** Authorization *)

(** The handlers of [bot_v3.py] never look at who sent the update. *)
Lemma v3_handlers_ignore_user (lower : pystr -> pystr)
    (GITHUB_TOKEN : option pystr) (procs : list BotV3.process)
    (post : dispatch_request -> BotV3.http_outcome)
    (write : pystr -> BotV3.write_outcome)
    (user_id : Z) (u : update) (w : world) :
  BotV3.task_command lower GITHUB_TOKEN procs post write
    (with_user user_id u) w
  = BotV3.task_command lower GITHUB_TOKEN procs post write u w
  /\ BotV3.cloud_mode (with_user user_id u) w = BotV3.cloud_mode u w
  /\ BotV3.local_mode (with_user user_id u) w = BotV3.local_mode u w
  /\ BotV3.auto_mode lower procs (with_user user_id u) w
     = BotV3.auto_mode lower procs u w
  /\ BotV3.status_command lower GITHUB_TOKEN procs (with_user user_id u) w
     = BotV3.status_command lower GITHUB_TOKEN procs u w.
Proof. done. Qed.

(** C1 fails on [bot_v3.py]. With [12345] as the authorized identity, an
    update from user [999] is refused by [is_authorized], yet [/cloud] from
    that user changes the mode dictionary, and [/task] from that user
    reaches a backend: the cloud trigger is posted when no agent runs, the
    exchange file is written when one does. *)
Theorem stranger_changes_state :
  let switching := Sample.from_stranger [] in
  let submitting := Sample.from_stranger [lit "deploy"] in
  Bot.is_authorized Sample.owner (effective_user_id submitting) = false
  /\ user_execution_mode empty_world !! 999 = None
  /\ existsb mutates (BotV3.cloud_mode switching empty_world) = true
  /\ (exists w',
        run (BotV3.cloud_mode switching empty_world) empty_world = Some w'
        /\ user_execution_mode w' !! 999 = Some cloud)
  /\ existsb is_dispatch
        (BotV3.task_command ascii_lower Sample.token Sample.no_agent
           Sample.accepting Sample.disk_ok submitting empty_world) = true
  /\ BotV3.task_command ascii_lower Sample.token Sample.no_agent
       Sample.accepting Sample.disk_ok submitting empty_world
     = [ reply_text (TaskQueued cloud (lit "deploy"));
         requests_post (BotV3.build_request Sample.token 999
                          (lit "deploy") 8);
         reply_text CloudTriggered ]
  /\ BotV3.task_command ascii_lower Sample.token Sample.agent_running
       Sample.accepting Sample.disk_ok submitting empty_world
     = [ reply_text (TaskQueued local (lit "deploy"));
         write_pending_task (lit "deploy");
         reply_text LocalSent ]
  /\ pending_task empty_world = None
  /\ (exists w',
        run (BotV3.task_command ascii_lower Sample.token
               Sample.agent_running Sample.accepting Sample.disk_ok
               submitting empty_world) empty_world = Some w'
        /\ pending_task w' = Some (lit "deploy")).
Proof.
  intros switching submitting.
  split; [vm_compute; reflexivity|]. split; [reflexivity|].
  split; [reflexivity|].
  split; [eexists; split; [reflexivity|]; vm_compute; reflexivity|].
  split; [vm_compute; reflexivity|].
  split; [vm_compute; reflexivity|].
  split; [vm_compute; reflexivity|].
  split; [reflexivity|].
  eexists. split; [vm_compute; reflexivity|]. reflexivity.
Qed.

Lemma local_dispatch_overwrites_witness :
  (exists w',
     run (concat (map (fun dispatch =>
                         (BotV3.trigger_local_execution dispatch.1
                                                        dispatch.2).2)
                      ([(Sample.disk_ok, lit "first task");
                        (Sample.disk_locked, lit "second task")]
                       ++ [(Sample.disk_ok, lit "third task")])))
         empty_world = Some w'
     /\ pending_task w' = Some (lit "third task"))
  /\ (BotV3.trigger_local_execution Sample.disk_locked
        (lit "second task")).1 = false.
Proof.
  split.
  - apply (proj1 (local_dispatch_overwrites
                    [(Sample.disk_ok, lit "first task");
                     (Sample.disk_locked, lit "second task")]
                    Sample.disk_ok (lit "third task") empty_world)).
    reflexivity.
  - apply (proj2 (local_dispatch_overwrites [] Sample.disk_locked
                    (lit "second task") empty_world) None).
    reflexivity.
Defined.

(** C10 as stated fails: of two successive local dispatches the second
    finds the file not writable, reports failure, and the exchange file
    still holds the description of the first, not that of the later
    one. *)
Lemma local_dispatch_counterexample :
  let first :=
    BotV3.trigger_local_execution Sample.disk_ok (lit "first task") in
  let second :=
    BotV3.trigger_local_execution Sample.disk_locked (lit "second task") in
  first.1 = true
  /\ second.1 = false
  /\ exists w',
       run (first.2 ++ second.2) empty_world = Some w'
       /\ pending_task w' = Some (lit "first task")
       /\ pending_task w' <> Some (lit "second task").
Proof.
  intros first second. split; [reflexivity|]. split; [reflexivity|].
  eexists. split; [reflexivity|]. split; [reflexivity|]. discriminate.
Qed.

(** * Further properties *)

(** ** More on strings *)

Section MoreStringFacts.

Lemma lit_inj (s t : string) : lit s = lit t -> s = t.
Proof.
  revert t. induction s as [|a s IH]; intros [|b t] H; simpl in *;
    try done.
  injection H as Hab Hst. f_equal; [|by apply IH].
  by rewrite <- (ascii_N_embedding a), <- (ascii_N_embedding b), Hab.
Qed.

(** [str] gives different texts for different integers. *)
Lemma str_inj (m n : Z) : str m = str n -> m = n.
Proof.
  unfold str. intros H. apply lit_inj in H.
  apply DecimalZ.to_int_inj.
  assert (Hproper : forall z, Z.to_int z <> Decimal.Pos Decimal.Nil
                              /\ Z.to_int z <> Decimal.Neg Decimal.Nil).
  { intros [|p|p]; simpl; split; try done; intros [= Hp];
      by apply DecimalPos.Unsigned.to_uint_nonnil in Hp. }
  destruct (Hproper m) as [Hm1 Hm2]. destruct (Hproper n) as [Hn1 Hn2].
  pose proof (NilZero.isi _ Hm1 Hm2) as Em.
  pose proof (NilZero.isi _ Hn1 Hn2) as En.
  rewrite H in Em. congruence.
Qed.

Lemma lstrip_app_nonspace (a : pystr) (c : char) (b : pystr) :
  isspace c = false -> lstrip (a ++ c :: b) = lstrip a ++ c :: b.
Proof.
  intros Hc. induction a as [|x a IH]; simpl; [by rewrite Hc|].
  by destruct (isspace x).
Qed.

Lemma lstrip_head (s : pystr) (c : char) (t : pystr) :
  lstrip s = c :: t -> isspace c = false.
Proof.
  induction s as [|x s IH]; simpl; [done|].
  destruct (isspace x) eqn:Hx; [done|]. by intros [= <- _].
Qed.

Lemma lstrip_fixed (c : char) (t : pystr) :
  isspace c = false -> lstrip (c :: t) = c :: t.
Proof. intros Hc. simpl. by rewrite Hc. Qed.

Lemma lstrip_idem (s : pystr) : lstrip (lstrip s) = lstrip s.
Proof.
  destruct (lstrip s) as [|c t] eqn:E; [done|].
  apply lstrip_fixed. by apply lstrip_head in E.
Qed.

Lemma rstrip_cons_nonspace (c : char) (t : pystr) :
  isspace c = false -> rstrip (c :: t) = c :: rstrip t.
Proof.
  intros Hc. unfold rstrip. simpl.
  rewrite lstrip_app_nonspace by done.
  rewrite rev_app_distr. done.
Qed.

Lemma rstrip_idem (s : pystr) : rstrip (rstrip s) = rstrip s.
Proof. unfold rstrip. by rewrite rev_involutive, lstrip_idem. Qed.

(** Stripping twice is stripping once. *)
Lemma strip_idem (s : pystr) : strip (strip s) = strip s.
Proof.
  unfold strip. destruct (lstrip s) as [|c t] eqn:E; [done|].
  apply lstrip_head in E as Hc.
  rewrite rstrip_cons_nonspace by done.
  rewrite lstrip_fixed by done.
  rewrite <- rstrip_cons_nonspace by done. apply rstrip_idem.
Qed.

Lemma lstrip_all_space (s : pystr) :
  forallb isspace s = true -> lstrip s = [].
Proof.
  induction s as [|c s IH]; simpl; [done|].
  intros H. apply andb_prop in H as [-> Hs]. by apply IH.
Qed.

Lemma strip_all_space (s : pystr) :
  forallb isspace s = true -> strip s = [].
Proof. intros H. unfold strip. by rewrite lstrip_all_space. Qed.

Lemma lstrip_suffix (s : pystr) : exists pre, s = pre ++ lstrip s.
Proof.
  induction s as [|c s [pre IH]]; simpl; [by exists []|].
  destruct (isspace c); [|by exists []].
  exists (c :: pre). simpl. by f_equal.
Qed.

(** [strip] cuts a piece out of its argument. *)
Lemma strip_infix (s : pystr) : exists pre post, s = pre ++ strip s ++ post.
Proof.
  unfold strip, rstrip.
  destruct (lstrip_suffix s) as [pre Hpre].
  destruct (lstrip_suffix (rev (lstrip s))) as [post Hpost].
  exists pre, (rev post).
  rewrite <- rev_app_distr, <- Hpost, rev_involutive. done.
Qed.

Lemma strip_length (s : pystr) : (length (strip s) <= length s)%nat.
Proof.
  destruct (strip_infix s) as (pre & post & H).
  rewrite H at 2. rewrite !length_app. lia.
Qed.

(** A text without carriage returns is read back as it is. *)
Lemma universal_newlines_plain (s : list N) :
  forallb (fun c : N => negb (c =? 13)%N) s = true ->
  universal_newlines s = s.
Proof.
  induction s as [|c s IH]; simpl; [done|].
  intros H. apply andb_prop in H as [Hc Hs].
  apply negb_true_iff in Hc. rewrite Hc. by rewrite IH.
Qed.

Lemma no_carriage_return (s : list N) :
  13%N ∉ s -> forallb (fun c : N => negb (c =? 13)%N) s = true.
Proof.
  induction s as [|c s IH]; simpl; [done|].
  intros H. apply not_elem_of_cons in H as [Hc Hs].
  rewrite IH by done. rewrite andb_true_r.
  apply negb_true_iff, N.eqb_neq. done.
Qed.

End MoreStringFacts.

(** ** bot.py: authorization and sanitization, further *)

Section SanitizeMore.

Import Bot.

(** Walk through the three checks of [sanitize_task_description]. *)
Ltac sanitize_checks raw :=
  unfold sanitize_task_description;
  destruct (Nat.ltb_spec MAX_TASK_DESCRIPTION_LENGTH (length (strip raw)))
    as [?Hlong|?Hlen];
  [|destruct (ALLOWED_TASK_CHARS_match (strip raw)) eqn:?Hmatch;
    simpl negb; cbv iota;
    [destruct (contains (lit "/") (strip raw)) eqn:?Hslash;
     destruct (contains (lit "\") (strip raw)) eqn:?Hback;
     destruct (contains (lit "..") (strip raw)) eqn:?Hdots; simpl|]].

Lemma sanitize_inr_strip (raw description : pystr) :
  sanitize_task_description raw = inr description ->
  description = strip raw /\ strip raw <> [].
Proof.
  sanitize_checks raw; try done. intros [= <-].
  apply ALLOWED_TASK_CHARS_match_spec in Hmatch as [Hne Hall]. done.
Qed.

(** X1. At most one user id is authorized: two ids that both pass
    [is_authorized] are the same id. *)
Theorem authorized_identity_is_unique (AUTHORIZED_USER_ID : option pystr)
    (first second : Z) :
  is_authorized AUTHORIZED_USER_ID first = true ->
  is_authorized AUTHORIZED_USER_ID second = true ->
  first = second.
Proof.
  unfold is_authorized. intros H1 H2.
  apply bool_decide_eq_true in H1, H2.
  rewrite <- H2 in H1. injection H1 as H1. by apply str_inj.
Qed.

(** X2. What [sanitize_task_description] returns is safe: it is the input
    stripped, it is not empty, it has at most
    [MAX_TASK_DESCRIPTION_LENGTH] characters, all of the allowed class,
    and it contains neither [/], [\] nor [..]. *)
Theorem sanitized_description_is_safe (raw description : pystr) :
  sanitize_task_description raw = inr description ->
  description = strip raw
  /\ description <> []
  /\ (length description <= MAX_TASK_DESCRIPTION_LENGTH)%nat
  /\ forallb allowed_task_char description = true
  /\ contains (lit "/") description = false
  /\ contains (lit "\") description = false
  /\ contains (lit "..") description = false.
Proof.
  sanitize_checks raw; try done. intros [= <-].
  apply ALLOWED_TASK_CHARS_match_spec in Hmatch as [Hne Hall]. done.
Qed.

(** X3. Sanitizing is idempotent: an accepted description is accepted
    again, unchanged. *)
Theorem sanitize_is_idempotent (raw description : pystr) :
  sanitize_task_description raw = inr description ->
  sanitize_task_description description = inr description.
Proof.
  intros H.
  assert (Hd : description = strip raw /\ strip raw <> []
               /\ (length (strip raw) <= MAX_TASK_DESCRIPTION_LENGTH)%nat
               /\ forallb allowed_task_char (strip raw) = true
               /\ contains (lit "..") (strip raw) = false).
  { revert H. sanitize_checks raw; try done. intros [= <-].
    apply ALLOWED_TASK_CHARS_match_spec in Hmatch as [Hne Hall]. done. }
  destruct Hd as (-> & Hne & Hlen & Hall & Hdots).
  rewrite (sanitize_accepts (strip raw)); rewrite ?strip_idem; done.
Qed.

(** X4. Which error a refused description gets. It is [too_long] exactly
    when more than [MAX_TASK_DESCRIPTION_LENGTH] characters are left after
    stripping; otherwise [forbidden_characters] exactly when nothing is
    left or some character is outside the allowed class; otherwise
    [path_separators] exactly when [..] occurs. A [/] or a [\] never gets
    as far as the separator check. *)
Theorem sanitize_error_cases (raw : pystr) :
  (sanitize_task_description raw = inl too_long
   <-> (MAX_TASK_DESCRIPTION_LENGTH < length (strip raw))%nat)
  /\ (sanitize_task_description raw = inl forbidden_characters
      <-> (length (strip raw) <= MAX_TASK_DESCRIPTION_LENGTH)%nat
          /\ (strip raw = []
              \/ forallb allowed_task_char (strip raw) = false))
  /\ (sanitize_task_description raw = inl path_separators
      <-> (length (strip raw) <= MAX_TASK_DESCRIPTION_LENGTH)%nat
          /\ strip raw <> []
          /\ forallb allowed_task_char (strip raw) = true
          /\ contains (lit "..") (strip raw) = true).
Proof.
  assert (Hspec := ALLOWED_TASK_CHARS_match_spec (strip raw)).
  assert (Hsep : forall c, allowed_task_char c = false ->
                 ALLOWED_TASK_CHARS_match (strip raw) = true ->
                 contains [c] (strip raw) = false).
  { intros c Hc Hm. apply allowed_no_char; [done|]. by apply Hspec. }
  pose proof (Hsep 47%N eq_refl) as Hno_slash.
  pose proof (Hsep 92%N eq_refl) as Hno_back.
  change [47%N] with (lit "/") in Hno_slash.
  change [92%N] with (lit "\") in Hno_back.
  sanitize_checks raw;
    try (rewrite Hno_slash in Hslash by done; discriminate);
    try (rewrite Hno_back in Hback by done; discriminate).
  all: repeat split; intros; try done; try lia.
  all: try (by apply Hspec).
  all: try (destruct Hspec as [Hs _]; destruct (Hs eq_refl) as [Hne Hall];
            destruct H as [_ [H|H]]; congruence).
  - destruct (strip raw) as [|c t] eqn:E; [by left|right].
    destruct (forallb allowed_task_char (c :: t)) eqn:Hall; [|done].
    destruct Hspec as [_ Hs]. discriminate Hs. done.
  - destruct H as (_ & Hne & Hall & _).
    destruct Hspec as [_ Hs]. discriminate Hs. done.
Qed.

(** X5. A description that is empty or made of whitespace only is refused,
    with the forbidden-characters error. *)
Theorem blank_description_is_refused (raw : pystr) :
  forallb isspace raw = true ->
  sanitize_task_description raw = inl forbidden_characters.
Proof.
  intros H. unfold sanitize_task_description.
  by rewrite (strip_all_space raw H).
Qed.

End SanitizeMore.

(** ** bot.py: startup *)

Section ConfigurationFacts.

Import Bot.

Variable path_str : pystr -> pystr.

(** X6. [validate_configuration] reports each missing setting and nothing
    else: an error is in the list exactly when its own setting is missing
    (no token, no user id, or a path that prints as [.]), so the list is
    empty exactly when all six settings are there. *)
Theorem configuration_errors (env : environ) :
  (token_not_set ∈ validate_configuration path_str env
   <-> truthy (TELEGRAM_BOT_TOKEN env) = false)
  /\ (user_id_not_set ∈ validate_configuration path_str env
      <-> truthy (TELEGRAM_USER_ID env) = false)
  /\ (status_file_not_set ∈ validate_configuration path_str env
      <-> path_not_set path_str (CLAUDE_STATUS_FILE env) = true)
  /\ (approval_file_not_set ∈ validate_configuration path_str env
      <-> path_not_set path_str (CLAUDE_APPROVAL_FILE env) = true)
  /\ (response_file_not_set ∈ validate_configuration path_str env
      <-> path_not_set path_str (CLAUDE_RESPONSE_FILE env) = true)
  /\ (tasks_dir_not_set ∈ validate_configuration path_str env
      <-> path_not_set path_str (CLAUDE_TASKS_DIR env) = true)
  /\ (validate_configuration path_str env = []
      <-> truthy (TELEGRAM_BOT_TOKEN env) = true
          /\ truthy (TELEGRAM_USER_ID env) = true
          /\ path_not_set path_str (CLAUDE_STATUS_FILE env) = false
          /\ path_not_set path_str (CLAUDE_APPROVAL_FILE env) = false
          /\ path_not_set path_str (CLAUDE_RESPONSE_FILE env) = false
          /\ path_not_set path_str (CLAUDE_TASKS_DIR env) = false).
Proof.
  unfold validate_configuration.
  destruct (truthy (TELEGRAM_BOT_TOKEN env)),
           (truthy (TELEGRAM_USER_ID env)),
           (path_not_set path_str (CLAUDE_STATUS_FILE env)),
           (path_not_set path_str (CLAUDE_APPROVAL_FILE env)),
           (path_not_set path_str (CLAUDE_RESPONSE_FILE env)),
           (path_not_set path_str (CLAUDE_TASKS_DIR env));
    simpl; repeat split; intros; try done;
    repeat first [ apply list_elem_of_here | apply list_elem_of_further ];
    repeat match goal with
           | H : _ ∈ [] |- _ => by apply not_elem_of_nil in H
           | H : _ ∈ _ :: _ |- _ =>
               apply elem_of_cons in H as [H|H]; [discriminate H|]
           | H : _ /\ _ |- _ => destruct H
           end; try done.
Qed.

(** X7. Given that the empty path prints as [.], a path variable that is
    unset or empty makes startup fail: its error is reported. *)
Theorem unset_path_is_reported (env : environ) :
  path_str [] = lit "." ->
  (default [] (CLAUDE_STATUS_FILE env) = [] ->
   status_file_not_set ∈ validate_configuration path_str env)
  /\ (default [] (CLAUDE_APPROVAL_FILE env) = [] ->
      approval_file_not_set ∈ validate_configuration path_str env)
  /\ (default [] (CLAUDE_RESPONSE_FILE env) = [] ->
      response_file_not_set ∈ validate_configuration path_str env)
  /\ (default [] (CLAUDE_TASKS_DIR env) = [] ->
      tasks_dir_not_set ∈ validate_configuration path_str env).
Proof.
  intros Hdot.
  assert (Hunset : forall v, default [] v = [] ->
                             path_not_set path_str v = true).
  { intros v Hv. unfold path_not_set. rewrite Hv.
    by apply bool_decide_eq_true. }
  unfold validate_configuration.
  repeat split; intros Hv; rewrite (Hunset _ Hv);
    rewrite !elem_of_app; repeat (try (left; apply list_elem_of_here); right).
Qed.

End ConfigurationFacts.

(** ** bot.py: the handlers together *)

Section PollingFacts.

Import Bot.

Variable AUTHORIZED_USER_ID : option pystr.

Lemma run_replies_only (effs : list effect) (w : world) :
  existsb mutates effs = false -> run effs w = Some w.
Proof.
  induction effs as [|e effs IH]; simpl; [done|].
  intros H. apply orb_false_elim in H as [He Heffs].
  destruct e; try done. simpl. by apply IH.
Qed.

(** The three shapes a handler's effects can take. *)
Lemma handle_shape (ev : event) (w : world) :
  existsb mutates (handle AUTHORIZED_USER_ID ev w) = false
  \/ (exists description,
        handle AUTHORIZED_USER_ID ev w
        = creation_effects (clock_of ev) description)
  \/ (is_Some (APPROVAL_FILE w)
      /\ exists resolution done,
           (resolution = lit "APPROVED" \/ resolution = lit "REJECTED")
           /\ handle AUTHORIZED_USER_ID ev w
              = [ write_RESPONSE_FILE resolution; unlink_APPROVAL_FILE;
                  reply_text done ]).
Proof.
  unfold handle, start, ping, status, create_task, approve, reject.
  destruct (command_of ev);
    destruct (is_authorized AUTHORIZED_USER_ID
                (effective_user_id (update_of ev)));
    simpl; try (by left).
  - destruct (args (update_of ev)); [by left|].
    destruct (sanitize_task_description _) as [e|d]; [by left|].
    right. left. by exists d.
  - destruct (APPROVAL_FILE w) eqn:E; [|by left].
    right. right. split; [done|]. exists (lit "APPROVED"), Approved. auto.
  - destruct (APPROVAL_FILE w) eqn:E; [|by left].
    right. right. split; [done|]. exists (lit "REJECTED"), Rejected. auto.
Qed.

(** What one handled update can do to the world. *)
Lemma handle_step (ev : event) (w : world) :
  exists w',
    run (handle AUTHORIZED_USER_ID ev w) w = Some w'
    /\ (APPROVAL_FILE w' = APPROVAL_FILE w \/ APPROVAL_FILE w' = None)
    /\ (RESPONSE_FILE w' = RESPONSE_FILE w
        \/ is_Some (APPROVAL_FILE w)
           /\ (RESPONSE_FILE w' = Some (lit "APPROVED")
               \/ RESPONSE_FILE w' = Some (lit "REJECTED")))
    /\ pending_task w' = pending_task w
    /\ user_execution_mode w' = user_execution_mode w
    /\ (forall files, TASKS_DIR w = Some files ->
        exists files', TASKS_DIR w' = Some files' /\ dom files ⊆ dom files').
Proof.
  destruct (handle_shape ev w)
    as [Hinert|[[d ->]|[[a Ha] (r & m & Hr & ->)]]].
  - exists w. rewrite (run_replies_only _ _ Hinert).
    repeat split; eauto.
  - unfold creation_effects. simpl.
    destruct (TASKS_DIR w) as [files|] eqn:E; simpl; rewrite ?E; simpl;
      eexists; (split; [reflexivity|]); simpl;
      repeat split; eauto; intros files0 [= <-];
      eexists; split; [reflexivity|]; set_solver.
  - simpl. rewrite Ha. eexists. split; [reflexivity|]. simpl.
    repeat split; eauto.
    right. split; [by eexists|]. destruct Hr as [->| ->]; auto.
Qed.

Lemma polling_invariant (events : list event) (w : world) :
  exists w',
    run_polling AUTHORIZED_USER_ID events w = Some w'
    /\ (APPROVAL_FILE w' = APPROVAL_FILE w \/ APPROVAL_FILE w' = None)
    /\ (RESPONSE_FILE w' = RESPONSE_FILE w
        \/ is_Some (APPROVAL_FILE w)
           /\ (RESPONSE_FILE w' = Some (lit "APPROVED")
               \/ RESPONSE_FILE w' = Some (lit "REJECTED")))
    /\ pending_task w' = pending_task w
    /\ user_execution_mode w' = user_execution_mode w
    /\ (forall files, TASKS_DIR w = Some files ->
        exists files', TASKS_DIR w' = Some files' /\ dom files ⊆ dom files').
Proof.
  revert w. induction events as [|ev events IH]; intros w; simpl.
  - exists w. repeat split; eauto.
  - destruct (handle_step ev w)
      as (w1 & -> & Hgate1 & Hresp1 & Hpend1 & Hmode1 & Hdir1).
    destruct (IH w1) as (w2 & Hrun & Hgate2 & Hresp2 & Hpend2 & Hmode2 & Hdir2).
    exists w2. split; [done|]. repeat split.
    + destruct Hgate2 as [->|]; auto.
    + destruct Hresp2 as [->|[[a Ha] Hval]]; [done|].
      right. split; [|done].
      destruct Hgate1 as [E|E]; rewrite E in Ha; [by eexists|done].
    + congruence.
    + congruence.
    + intros files Hfiles.
      destruct (Hdir1 _ Hfiles) as (files1 & Hfiles1 & Hsub1).
      destruct (Hdir2 _ Hfiles1) as (files2 & Hfiles2 & Hsub2).
      exists files2. split; [done|]. by trans (dom files1).
Qed.

(** X8. [/start], [/ping] and [/status] change nothing, whoever sends
    them: their only effects are replies. *)
Theorem queries_leave_the_world (ev : event) (w : world) :
  command_of ev = slash_start \/ command_of ev = slash_ping
  \/ command_of ev = slash_status ->
  existsb mutates (handle AUTHORIZED_USER_ID ev w) = false
  /\ run (handle AUTHORIZED_USER_ID ev w) w = Some w.
Proof.
  intros Hcmd.
  assert (Hinert : existsb mutates (handle AUTHORIZED_USER_ID ev w) = false).
  { unfold handle, start, ping, status.
    destruct Hcmd as [->|[->| ->]];
      by destruct (is_authorized _ _). }
  split; [done|]. by apply run_replies_only.
Qed.

(** X9. Handling never raises: whatever updates arrive, in whatever order
    and from whomever, no handler unlinks a missing approval file or
    writes into a missing tasks directory. *)
Theorem polling_never_raises (events : list event) (w : world) :
  is_Some (run_polling AUTHORIZED_USER_ID events w).
Proof.
  destruct (polling_invariant events w) as (w' & -> & _). by eexists.
Qed.

(** X10. The bot never opens the gate and resolves only an open one.
    Over any run of updates the approval file is left as it was or
    removed; the response file is left as it was unless the gate was open
    at the start, and then holds [APPROVED] or [REJECTED]. *)
Theorem gate_is_only_closed (events : list event) (w w' : world) :
  run_polling AUTHORIZED_USER_ID events w = Some w' ->
  (APPROVAL_FILE w' = APPROVAL_FILE w \/ APPROVAL_FILE w' = None)
  /\ (RESPONSE_FILE w' = RESPONSE_FILE w
      \/ RESPONSE_FILE w' = Some (lit "APPROVED")
      \/ RESPONSE_FILE w' = Some (lit "REJECTED"))
  /\ (APPROVAL_FILE w = None ->
      APPROVAL_FILE w' = None /\ RESPONSE_FILE w' = RESPONSE_FILE w).
Proof.
  intros Hrun.
  destruct (polling_invariant events w) as (w1 & E & Hgate & Hresp & _).
  rewrite Hrun in E. injection E as <-.
  split; [done|]. split.
  - destruct Hresp as [|[_ [|]]]; auto.
  - intros Hclosed. split.
    + destruct Hgate as [->|]; done.
    + destruct Hresp as [|[[a Ha] _]]; [done|congruence].
Qed.

(** X11. The bot keeps to its own files: over any run of updates the local
    exchange file and the mode dictionary are left alone, the tasks
    directory is never removed, and no task file in it is ever deleted. *)
Theorem task_files_are_kept (events : list event) (w w' : world) :
  run_polling AUTHORIZED_USER_ID events w = Some w' ->
  pending_task w' = pending_task w
  /\ user_execution_mode w' = user_execution_mode w
  /\ (forall files, TASKS_DIR w = Some files ->
      exists files', TASKS_DIR w' = Some files' /\ dom files ⊆ dom files').
Proof.
  intros Hrun.
  destruct (polling_invariant events w) as (w1 & E & _ & _ & H).
  rewrite Hrun in E. by injection E as <-.
Qed.

(** X12. Updates that all come from users other than the authorized one
    leave the world exactly as it was, however many and whatever
    commands. *)
Theorem strangers_change_nothing (events : list event) (w : world) :
  Forall (fun ev => is_authorized AUTHORIZED_USER_ID
                      (effective_user_id (update_of ev)) = false) events ->
  run_polling AUTHORIZED_USER_ID events w = Some w.
Proof.
  induction 1 as [|ev events Hev _ IH]; simpl; [done|].
  assert (Hinert : existsb mutates (handle AUTHORIZED_USER_ID ev w) = false).
  { unfold handle, start, ping, status, create_task, approve, reject.
    rewrite Hev. by destruct (command_of ev). }
  by rewrite (run_replies_only _ _ Hinert).
Qed.

End PollingFacts.

Section HandlerSequences.

Import Bot.

Variable AUTHORIZED_USER_ID : option pystr.

Lemma task_file_name_inj (now1 now2 : clock) :
  task_file_name now1 = task_file_name now2 ->
  timestamp now1 = timestamp now2.
Proof.
  unfold task_file_name. intros H.
  apply app_inv_head in H. by apply app_inv_tail in H.
Qed.

Lemma create_task_accepted (now : clock) (u : update) (w : world)
    (description : pystr) :
  is_authorized AUTHORIZED_USER_ID (effective_user_id u) = true ->
  sanitize_task_description (raw_description u) = inr description ->
  create_task AUTHORIZED_USER_ID now u w = creation_effects now description.
Proof.
  intros Hauth Hsan.
  apply create_task_sanitized; [done|done|].
  by apply sanitize_inr_strip in Hsan as [_ Hne].
Qed.

(** The world after the effects of a successful creation. *)
Lemma run_creation_effects_eq (now : clock) (description : pystr)
    (w : world) :
  run (creation_effects now description) w
  = Some (set_STATUS_FILE (Some (status_content now description))
            (set_TASKS_DIR
               (Some (<[task_file_name now := task_content now description]>
                        (default ∅ (TASKS_DIR w)))) w)).
Proof.
  unfold creation_effects. simpl.
  destruct (TASKS_DIR w) as [files|] eqn:E; simpl; by rewrite ?E.
Qed.

(** X13. After a task is created, [/status] shows the status text of that
    task as a reader in text mode gets it, every carriage return turned
    into a line feed; with no carriage return in the description and the
    clock readings, that is the text as written. It reports an approval as
    pending exactly when the approval file was there before the
    creation. *)
Theorem status_shows_created_task (now : clock) (u asker : update)
    (w : world) (description : pystr) :
  is_authorized AUTHORIZED_USER_ID (effective_user_id u) = true ->
  is_authorized AUTHORIZED_USER_ID (effective_user_id asker) = true ->
  sanitize_task_description (raw_description u) = inr description ->
  let written :=
    [128994%N] ++ lit " New Task" ++ NL ++ NL ++
    lit "Task: " ++ description ++ NL ++
    lit "Started: " ++ started now ++ NL ++
    lit "File: " ++ (lit "telegram_" ++ timestamp now ++ lit ".md") ++ NL in
  exists w',
    run (create_task AUTHORIZED_USER_ID now u w) w = Some w'
    /\ STATUS_FILE w' = Some written
    /\ status AUTHORIZED_USER_ID asker w'
       = [reply_text
            (StatusReport (Some (universal_newlines written))
                          (bool_decide (is_Some (APPROVAL_FILE w))))]
    /\ (13%N ∉ description -> 13%N ∉ started now ->
        13%N ∉ timestamp now ->
        universal_newlines written = written).
Proof.
  intros Hu Hasker Hsan written.
  rewrite (create_task_accepted now u w _ Hu Hsan).
  rewrite run_creation_effects_eq. eexists. split; [reflexivity|].
  split; [reflexivity|]. split.
  - unfold status. by rewrite Hasker.
  - intros Hd Hs Ht. apply universal_newlines_plain.
    unfold written. rewrite !forallb_app.
    repeat (apply andb_true_intro; split);
      try reflexivity; by apply no_carriage_return.
Qed.

(** X14. The first resolution stands: once [/approve] or [/reject] has
    closed an open gate, a second [/approve] or [/reject] only answers
    that nothing is pending and leaves the response file as it is. *)
Theorem second_resolution_is_ignored (first second : update) (w : world) :
  is_authorized AUTHORIZED_USER_ID (effective_user_id first) = true ->
  is_authorized AUTHORIZED_USER_ID (effective_user_id second) = true ->
  is_Some (APPROVAL_FILE w) ->
  (exists w1,
     run (approve AUTHORIZED_USER_ID first w) w = Some w1
     /\ RESPONSE_FILE w1 = Some (lit "APPROVED")
     /\ approve AUTHORIZED_USER_ID second w1
        = [reply_text NoPendingApprovals]
     /\ reject AUTHORIZED_USER_ID second w1
        = [reply_text NoPendingApprovals])
  /\ (exists w1,
        run (reject AUTHORIZED_USER_ID first w) w = Some w1
        /\ RESPONSE_FILE w1 = Some (lit "REJECTED")
        /\ approve AUTHORIZED_USER_ID second w1
           = [reply_text NoPendingApprovals]
        /\ reject AUTHORIZED_USER_ID second w1
           = [reply_text NoPendingApprovals]).
Proof.
  intros H1 H2 [a Ha]. unfold approve, reject.
  rewrite H1, H2, Ha. simpl. rewrite Ha.
  split; eexists; (split; [reflexivity|]); done.
Qed.

(** X15. Two tasks created one after the other: the status file shows the
    later one; both task files are there when the two timestamps differ,
    and with equal timestamps the later task replaces the file of the
    earlier one. *)
Theorem later_task_takes_over (now1 now2 : clock) (u1 u2 : update)
    (w : world) (d1 d2 : pystr) :
  is_authorized AUTHORIZED_USER_ID (effective_user_id u1) = true ->
  is_authorized AUTHORIZED_USER_ID (effective_user_id u2) = true ->
  sanitize_task_description (raw_description u1) = inr d1 ->
  sanitize_task_description (raw_description u2) = inr d2 ->
  exists w1 w2 files,
    run (create_task AUTHORIZED_USER_ID now1 u1 w) w = Some w1
    /\ run (create_task AUTHORIZED_USER_ID now2 u2 w1) w1 = Some w2
    /\ TASKS_DIR w2 = Some files
    /\ STATUS_FILE w2 = Some (status_content now2 d2)
    /\ files !! task_file_name now2 = Some (task_content now2 d2)
    /\ (timestamp now1 <> timestamp now2 ->
        files !! task_file_name now1 = Some (task_content now1 d1)).
Proof.
  intros Hu1 Hu2 Hs1 Hs2.
  eexists _, _, _.
  rewrite (create_task_accepted now1 u1 w _ Hu1 Hs1).
  rewrite run_creation_effects_eq. split; [reflexivity|].
  rewrite (create_task_accepted now2 u2 _ _ Hu2 Hs2).
  rewrite run_creation_effects_eq. split; [reflexivity|]. simpl.
  split; [reflexivity|]. split; [reflexivity|].
  split; [by rewrite lookup_insert_eq|].
  intros Hne. rewrite lookup_insert_ne.
  - by rewrite lookup_insert_eq.
  - intros E. by apply task_file_name_inj in E.
Qed.

End HandlerSequences.

(** ** bot_v3.py, further *)

Section V3Facts.

Import BotV3.

Variable lower : pystr -> pystr.
Variable GITHUB_TOKEN : option pystr.

(** X16. On a process table whose names can all be read, the probe does
    not depend on the order in which the processes are listed; and on any
    table, the answer [cloud] does not depend on it. *)
Theorem probe_ignores_order (procs procs' : list process) :
  procs ≡ₚ procs' ->
  (all_named procs ->
   detect_execution_mode lower procs = detect_execution_mode lower procs')
  /\ (detect_execution_mode lower procs = Some cloud ->
      detect_execution_mode lower procs' = Some cloud).
Proof.
  intros Hperm.
  assert (E : forall f : process -> bool,
              existsb f procs = existsb f procs').
  { intros f.
    induction Hperm as [|x l l' _ IH|x y l|l l' l'' _ IH1 _ IH2]; simpl.
    - done.
    - by rewrite IH.
    - by destruct (f x), (f y).
    - congruence. }
  split.
  - intros Hnamed.
    assert (Hnamed' : all_named procs').
    { unfold all_named in *. by rewrite <- Hperm. }
    rewrite !detect_execution_mode_named by done.
    by rewrite E.
  - rewrite !detect_cloud_iff. intros H. by rewrite <- Hperm.
Qed.

(** X17. [/cloud] and [/local] pin the backend of the chat that sent them:
    afterwards the mode of that chat is the pinned one whenever the probe
    returns, whatever it returns; the probe still runs first, so a probe
    that raises leaves no mode at all. The mode of every other chat is
    what it was. *)
Theorem mode_command_pins_backend (procs : list process) (u : update)
    (other : Z) (w : world) :
  (exists w',
     run (cloud_mode u w) w = Some w'
     /\ user_execution_mode w' !! effective_chat_id u = Some cloud
     /\ (is_Some (detect_execution_mode lower procs) ->
         execution_mode lower procs (effective_chat_id u) w' = Some cloud)
     /\ (detect_execution_mode lower procs = None ->
         execution_mode lower procs (effective_chat_id u) w' = None)
     /\ (other <> effective_chat_id u ->
         execution_mode lower procs other w'
         = execution_mode lower procs other w))
  /\ (exists w',
        run (local_mode u w) w = Some w'
        /\ user_execution_mode w' !! effective_chat_id u = Some local
        /\ (is_Some (detect_execution_mode lower procs) ->
            execution_mode lower procs (effective_chat_id u) w' = Some local)
        /\ (detect_execution_mode lower procs = None ->
            execution_mode lower procs (effective_chat_id u) w' = None)
        /\ (other <> effective_chat_id u ->
            execution_mode lower procs other w'
            = execution_mode lower procs other w)).
Proof.
  unfold execution_mode.
  split; eexists; (split; [reflexivity|]); simpl;
    (split; [by rewrite lookup_insert_eq|]);
    (split; [intros [d ->]; by rewrite lookup_insert_eq|]);
    (split; [by intros ->|]);
    intros Hne; by rewrite lookup_insert_ne.
Qed.

(** The effects of a handler are an exception alone, or replies, posts and
    writes of the exchange file, or one entry stored in the mode
    dictionary followed by a reply. *)
Lemma v3_handle_frame (ev : event) (w w' : world) :
  run (handle lower GITHUB_TOKEN ev w) w = Some w' ->
  STATUS_FILE w' = STATUS_FILE w
  /\ APPROVAL_FILE w' = APPROVAL_FILE w
  /\ RESPONSE_FILE w' = RESPONSE_FILE w
  /\ TASKS_DIR w' = TASKS_DIR w
  /\ dom (user_execution_mode w) ⊆ dom (user_execution_mode w').
Proof.
  unfold handle.
  destruct (command_of ev); simpl.
  - unfold start. destruct (detect_execution_mode _ _); simpl; [|done].
    by intros [= <-].
  - destruct (args (update_of ev)) as [|a rest] eqn:E.
    + unfold task_command. rewrite E. simpl. by intros [= <-].
    + destruct (execution_mode lower (processes_of ev)
                  (effective_chat_id (update_of ev)) w) as [mode|] eqn:Hmode.
      * rewrite (task_command_dispatch lower GITHUB_TOKEN _ _ _ _ _ mode)
          by (done || by rewrite E).
        destruct mode; simpl.
        -- rewrite run_app.
           destruct (trigger_local_execution_run (disk_of ev)
                       (Bot.raw_description (update_of ev)) w)
             as (w1 & -> & _ & Hs & Ha & Hr & Ht & Hm).
           simpl. intros [= <-]. by rewrite Hs, Ha, Hr, Ht, Hm.
        -- rewrite trigger_github_actions_spec. simpl.
           destruct (truthy GITHUB_TOKEN); simpl; by intros [= <-].
      * rewrite task_command_raises by (done || by rewrite E). done.
  - intros [= <-]. simpl. repeat split. rewrite dom_insert_L. set_solver.
  - intros [= <-]. simpl. repeat split. rewrite dom_insert_L. set_solver.
  - unfold auto_mode. destruct (detect_execution_mode _ _); simpl; [|done].
    intros [= <-]. simpl. repeat split. rewrite dom_insert_L. set_solver.
  - unfold status_command.
    destruct (detect_execution_mode _ _); simpl; [|done]. by intros [= <-].
Qed.

(** A handler raises only through the probe. *)
Lemma v3_handle_returns (ev : event) (w : world) :
  is_Some (detect_execution_mode lower (processes_of ev)) ->
  is_Some (run (handle lower GITHUB_TOKEN ev w) w).
Proof.
  intros [detected Hprobe]. unfold handle.
  destruct (command_of ev); simpl.
  - unfold start. by rewrite Hprobe.
  - destruct (args (update_of ev)) as [|a rest] eqn:E.
    + unfold task_command. by rewrite E.
    + rewrite (task_command_dispatch lower GITHUB_TOKEN _ _ _ _ _ _
                 ltac:(by rewrite E)
                 (execution_mode_resolved lower _ _ w _ Hprobe)).
      destruct (default detected _); simpl.
      * rewrite run_app.
        destruct (trigger_local_execution_run (disk_of ev)
                    (Bot.raw_description (update_of ev)) w)
          as (w1 & -> & _).
        done.
      * rewrite trigger_github_actions_spec. simpl.
        by destruct (truthy GITHUB_TOKEN).
  - done.
  - done.
  - unfold auto_mode. by rewrite Hprobe.
  - unfold status_command. by rewrite Hprobe.
Qed.

Lemma v3_polling_frame (events : list event) (w w' : world) :
  run_polling lower GITHUB_TOKEN events w = Some w' ->
  STATUS_FILE w' = STATUS_FILE w
  /\ APPROVAL_FILE w' = APPROVAL_FILE w
  /\ RESPONSE_FILE w' = RESPONSE_FILE w
  /\ TASKS_DIR w' = TASKS_DIR w
  /\ dom (user_execution_mode w) ⊆ dom (user_execution_mode w').
Proof.
  revert w. induction events as [|ev events IH]; intros w; simpl.
  - by intros [= <-].
  - destruct (run (handle lower GITHUB_TOKEN ev w) w) as [w1|] eqn:E;
      [|done].
    intros Hrun.
    destruct (v3_handle_frame ev w w1 E) as (Hs1 & Ha1 & Hr1 & Ht1 & Hd1).
    destruct (IH w1 Hrun) as (Hs2 & Ha2 & Hr2 & Ht2 & Hd2).
    repeat split; try congruence.
    by trans (dom (user_execution_mode w1)).
Qed.

(** X18. [bot_v3.py] leaves the task store alone. A run of updates in
    which every probe returns is handled to the end, and after any run
    handled to the end the status, approval and response files and the
    tasks directory are exactly as they were. *)
Theorem v3_leaves_task_store (events : list event) (w : world) :
  (Forall (fun ev =>
             is_Some (detect_execution_mode lower (processes_of ev)))
          events ->
   is_Some (run_polling lower GITHUB_TOKEN events w))
  /\ forall w',
       run_polling lower GITHUB_TOKEN events w = Some w' ->
       STATUS_FILE w' = STATUS_FILE w
       /\ APPROVAL_FILE w' = APPROVAL_FILE w
       /\ RESPONSE_FILE w' = RESPONSE_FILE w
       /\ TASKS_DIR w' = TASKS_DIR w.
Proof.
  split.
  - intros Hprobes. revert w.
    induction Hprobes as [|ev events Hev _ IH]; intros w; simpl;
      [by eexists|].
    destruct (v3_handle_returns ev w Hev) as [w1 ->]. apply IH.
  - intros w' Hrun.
    destruct (v3_polling_frame events w w' Hrun) as (H1 & H2 & H3 & H4 & _).
    done.
Qed.

(** X19. No command removes an entry of the mode dictionary: a chat that
    has a stored mode keeps one through any run of updates, and whenever
    the probe returns, its tasks get the stored mode and not what the
    probe found. *)
Theorem stored_mode_is_never_cleared (events : list event) (chat : Z)
    (w w' : world) :
  run_polling lower GITHUB_TOKEN events w = Some w' ->
  is_Some (user_execution_mode w !! chat) ->
  is_Some (user_execution_mode w' !! chat)
  /\ forall procs,
       is_Some (detect_execution_mode lower procs) ->
       execution_mode lower procs chat w' = user_execution_mode w' !! chat.
Proof.
  intros Hrun Hset.
  destruct (v3_polling_frame events w w' Hrun) as (_ & _ & _ & _ & Hdom).
  assert (Hset' : is_Some (user_execution_mode w' !! chat)).
  { apply elem_of_dom, Hdom, elem_of_dom, Hset. }
  split; [done|]. intros procs [detected Hprobe].
  rewrite (execution_mode_resolved lower _ _ _ _ Hprobe).
  by destruct Hset' as [m ->].
Qed.

(** X20. [/status] and [/task] agree: when the probe returns, the active
    mode that [/status] reports is the mode under which a task sent in
    the same moment is queued; when the probe raises, both raise. *)
Theorem status_agrees_with_task (procs : list process)
    (post : dispatch_request -> http_outcome)
    (write : pystr -> write_outcome) (u : update) (w : world) :
  args u <> [] ->
  (forall detected,
     detect_execution_mode lower procs = Some detected ->
     exists mode rest,
       task_command lower GITHUB_TOKEN procs post write u w
       = reply_text (TaskQueued mode (Bot.raw_description u)) :: rest
       /\ status_command lower GITHUB_TOKEN procs u w
          = [reply_text
               (ModeStatus (user_execution_mode w !! effective_chat_id u)
                           detected (truthy GITHUB_TOKEN) mode)])
  /\ (detect_execution_mode lower procs = None ->
      task_command lower GITHUB_TOKEN procs post write u w
      = [uncaught AttributeError]
      /\ status_command lower GITHUB_TOKEN procs u w
         = [uncaught AttributeError]).
Proof.
  intros Hargs. split.
  - intros detected Hprobe.
    rewrite (task_command_dispatch lower GITHUB_TOKEN _ _ _ _ _ _ Hargs
               (execution_mode_resolved lower _ _ w _ Hprobe)).
    unfold status_command. rewrite Hprobe.
    eexists _, _. split; reflexivity.
  - intros Hprobe.
    rewrite task_command_raises by (done || by apply execution_mode_raises).
    unfold status_command. by rewrite Hprobe.
Qed.

(** X21. What a task does once its mode is resolved. In [local] mode the
    exchange file is the only thing touched: with a successful write it
    holds the words of the command joined by spaces, unchecked, and the
    reply is the sent notice; with a failed write the reply is the local
    failure message. In [cloud] mode the world is left as it was. The
    remote endpoint is contacted once when the mode is [cloud] and a
    credential is set, and not at all otherwise. *)
Theorem task_dispatch_effects (procs : list process)
    (post : dispatch_request -> http_outcome)
    (write : pystr -> write_outcome) (u : update) (w : world)
    (mode : backend) :
  args u <> [] ->
  execution_mode lower procs (effective_chat_id u) w = Some mode ->
  (mode = local ->
   (exists w',
      run (task_command lower GITHUB_TOKEN procs post write u w) w = Some w'
      /\ pending_task w'
         = match write (Bot.raw_description u) with
           | written => Some (Bot.raw_description u)
           | write_failed (Some remains) => Some remains
           | write_failed None => pending_task w
           end
      /\ STATUS_FILE w' = STATUS_FILE w
      /\ APPROVAL_FILE w' = APPROVAL_FILE w
      /\ RESPONSE_FILE w' = RESPONSE_FILE w
      /\ TASKS_DIR w' = TASKS_DIR w
      /\ user_execution_mode w' = user_execution_mode w)
   /\ last (task_command lower GITHUB_TOKEN procs post write u w)
      = Some (reply_text
                match write (Bot.raw_description u) with
                | written => LocalSent
                | write_failed _ => LocalFailed
                end)
   /\ filter (fun e => is_post e = true)
             (task_command lower GITHUB_TOKEN procs post write u w) = [])
  /\ (mode = cloud ->
      run (task_command lower GITHUB_TOKEN procs post write u w) w = Some w
      /\ length (filter (fun e => is_post e = true)
                        (task_command lower GITHUB_TOKEN procs post write
                                      u w))
         = if truthy GITHUB_TOKEN then 1%nat else 0%nat).
Proof.
  intros Hargs Hmode.
  rewrite (task_command_dispatch lower GITHUB_TOKEN _ _ _ _ _ _ Hargs Hmode).
  split; intros ->.
  - split; [|split].
    + simpl. rewrite run_app.
      destruct (trigger_local_execution_run write (Bot.raw_description u) w)
        as (w' & -> & Hpending & Hs & Ha & Hr & Ht & Hm).
      simpl. by exists w'.
    + unfold trigger_local_execution.
      by destruct (write (Bot.raw_description u)) as [|[remains|]].
    + unfold trigger_local_execution.
      by destruct (write (Bot.raw_description u)) as [|[remains|]].
  - simpl. rewrite trigger_github_actions_spec. simpl.
    by destruct (truthy GITHUB_TOKEN).
Qed.

(** X22. The correlation data of a dispatch request tell chats and
    messages apart: two requests with the same [chat_id] field come from
    the same chat, and with the same [message_id] field from messages with
    the same id. *)
Theorem request_identifies_origin (chat chat' message message' : Z)
    (d d' : pystr) :
  (chat_id (build_request GITHUB_TOKEN chat d message)
   = chat_id (build_request GITHUB_TOKEN chat' d' message')
   -> chat = chat')
  /\ (message_id (build_request GITHUB_TOKEN chat d message)
      = message_id (build_request GITHUB_TOKEN chat' d' message')
      -> message = message').
Proof. split; simpl; apply str_inj. Qed.

End V3Facts.

(** ** send_notification.py *)

Section NotificationFacts.

Import Notification.

Variable upper : pystr -> pystr.

(** X23. The notification is posted exactly when both the bot token and
    the chat id are set and not empty. When it is posted, it goes to the
    [sendMessage] address of that token, for that chat id, as Markdown. *)
Theorem notification_needs_credentials (env : environ) :
  (send_notification upper env = None
   <-> truthy (TELEGRAM_BOT_TOKEN env) = false
       \/ truthy (CHAT_ID env) = false)
  /\ forall req,
       send_notification upper env = Some req ->
       CHAT_ID env = Some (send_chat_id req)
       /\ send_parse_mode req = lit "Markdown"
       /\ exists token,
            TELEGRAM_BOT_TOKEN env = Some token
            /\ send_url req = lit "https://api.telegram.org/bot" ++ token
                              ++ lit "/sendMessage".
Proof.
  unfold send_notification.
  destruct (TELEGRAM_BOT_TOKEN env) as [[|a token]|];
    destruct (CHAT_ID env) as [[|b chat]|]; simpl.
  all: split; [split; intros H; try done; auto; by destruct H|].
  all: intros req [= <-]; simpl; repeat split; by eexists.
Qed.

(** X24. The result is cut to its first 3000 characters: the text is the
    fixed frame of 104 characters, the upper-cased status and at most 3000
    characters of the result, and a result of at most 3000 characters is
    in the text whole. *)
Theorem notification_text_is_bounded (task_status task_result : pystr) :
  length (message upper task_status task_result)
  = (104 + length (upper task_status)
     + Nat.min 3000 (length task_result))%nat
  /\ (exists pre post,
        message upper task_status task_result
        = pre ++ take 3000 task_result ++ post)
  /\ ((length task_result <= 3000)%nat ->
      exists pre post,
        message upper task_status task_result
        = pre ++ task_result ++ post).
Proof.
  assert (Hframe : exists pre post,
             message upper task_status task_result
             = pre ++ take 3000 task_result ++ post).
  { exists (status_emoji task_status
            ++ lit " *AgentRemote Cloud Execution Complete*" ++ NL ++ NL
            ++ lit "*Status:* " ++ upper task_status ++ NL ++ NL
            ++ lit "*Result:*" ++ NL ++ lit "```" ++ NL),
           (NL ++ lit "```" ++ NL ++ NL
            ++ lit "_Executed via GitHub Actions_" ++ NL).
    unfold message. by rewrite <- !app_assoc. }
  split; [|split; [exact Hframe|]].
  - unfold message.
    assert (Hemoji : length (status_emoji task_status) = 1%nat)
      by (unfold status_emoji; by destruct (bool_decide _)).
    rewrite !length_app, length_take, Hemoji.
    generalize (length (upper task_status)).
    generalize (Nat.min 3000 (length task_result)).
    intros b a. cbn [length lit NL]. lia.
  - intros Hlen. rewrite take_ge in Hframe by exact Hlen. exact Hframe.
Qed.

End NotificationFacts.

(** ** cloud_executor.py: the commands taken from a reply *)

Section ExecutorFacts.

Import CloudExecutor.

Lemma split_lines_nonempty (s : pystr) : split_lines s <> [].
Proof.
  destruct s as [|c s]; simpl; [done|].
  destruct (c =? 10)%N; [done|]. by destruct (split_lines s).
Qed.

(** X25. Splitting a text into lines loses nothing: joining the lines
    with newlines gives the text back. *)
Theorem split_lines_join (s : pystr) : join NL (split_lines s) = s.
Proof.
  induction s as [|c s IH]; simpl; [done|].
  destruct (N.eqb_spec c 10) as [->|Hc].
  - pose proof (split_lines_nonempty s) as Hne.
    simpl. destruct (split_lines s) as [|l ls]; [done|].
    simpl in *. by rewrite IH.
  - pose proof (split_lines_nonempty s) as Hne.
    destruct (split_lines s) as [|l ls]; [done|].
    destruct ls; simpl in *; by rewrite <- IH.
Qed.

Lemma split_lines_head (s : pystr) (line : pystr) (lines : list pystr) :
  split_lines s = line :: lines -> exists post, s = line ++ post.
Proof.
  revert line lines. induction s as [|c s IH]; intros line lines; simpl.
  - intros [= <- <-]. by exists [].
  - destruct (c =? 10)%N.
    + intros [= <- _]. by eexists.
    + destruct (split_lines s) as [|l ls] eqn:E.
      * intros [= <- _]. destruct s; [by exists []|].
        simpl in E. destruct (_ =? _)%N; [done|].
        by destruct (split_lines s).
      * intros [= <- _]. destruct (IH l ls eq_refl) as [post ->].
        by exists post.
Qed.

(** Every line is a piece of the text, and holds no newline. *)
Lemma split_lines_elem (s line : pystr) :
  line ∈ split_lines s ->
  (exists pre post, s = pre ++ line ++ post) /\ 10%N ∉ line.
Proof.
  revert line. induction s as [|c s IH]; intros line; simpl.
  - intros H. apply list_elem_of_singleton in H as ->.
    split; [by exists [], []|]. apply not_elem_of_nil.
  - destruct (N.eqb_spec c 10) as [->|Hc].
    + intros H. apply elem_of_cons in H as [->|H].
      * split; [by exists [], (10%N :: s)|]. apply not_elem_of_nil.
      * destruct (IH _ H) as [(pre & post & ->) Hnl].
        split; [by exists (10%N :: pre), post|done].
    + destruct (split_lines s) as [|l ls] eqn:E.
      * by destruct (split_lines_nonempty s).
      * intros H. apply elem_of_cons in H as [->|H].
        -- destruct (split_lines_head s l ls E) as [post ->].
           split; [by exists [], post|].
           destruct (IH l) as [_ Hl]; [apply list_elem_of_here|].
           intros Hin. apply elem_of_cons in Hin as [Hin|Hin]; [done|].
           by apply Hl.
        -- destruct (IH line) as [(pre & post & ->) Hnl];
             [by apply list_elem_of_further|].
           split; [by exists (c :: pre), post|done].
Qed.

(** Which commands are run: exactly the stripped remainders of the lines
    of the reply that begin with [EXEC:]. *)
Lemma exec_commands_spec (result command : pystr) :
  command ∈ exec_commands result
  <-> exists rest,
        lit "EXEC:" ++ rest ∈ split_lines result /\ command = strip rest.
Proof.
  unfold exec_commands. rewrite list_elem_of_omap. split.
  - intros (line & Hin & Hcmd). unfold exec_command in Hcmd.
    destruct (startswith (lit "EXEC:") line) eqn:Hs; [|done].
    injection Hcmd as <-.
    apply startswith_inv in Hs as [rest ->]. by exists rest.
  - intros (rest & Hin & ->). exists (lit "EXEC:" ++ rest).
    split; [done|]. unfold exec_command. by rewrite startswith_app.
Qed.

(** X26. A reply in which [EXEC:] does not occur runs no command. *)
Theorem no_marker_no_command (result : pystr) :
  contains (lit "EXEC:") result = false -> exec_commands result = [].
Proof.
  intros Hno. unfold exec_commands.
  destruct (omap exec_command (split_lines result)) as [|c cs] eqn:E;
    [done|]. exfalso.
  assert (Hc : c ∈ omap exec_command (split_lines result))
    by (rewrite E; apply list_elem_of_here).
  apply list_elem_of_omap in Hc as (line & Hin & Hcmd).
  unfold exec_command in Hcmd.
  destruct (startswith (lit "EXEC:") line) eqn:Hs; [|done].
  apply startswith_inv in Hs as [rest ->].
  apply split_lines_elem in Hin as [(pre & post & Hsplit) _].
  assert (Hyes : contains (lit "EXEC:") result = true).
  { apply contains_spec. exists pre, (rest ++ post).
    by rewrite Hsplit, <- !app_assoc. }
  congruence.
Qed.

(** X27. Every command run is a single line without surrounding
    whitespace. *)
Theorem commands_are_stripped_lines (result command : pystr) :
  command ∈ exec_commands result ->
  strip command = command /\ 10%N ∉ command.
Proof.
  unfold exec_commands. rewrite list_elem_of_omap.
  intros (line & Hin & Hcmd). unfold exec_command in Hcmd.
  destruct (startswith (lit "EXEC:") line); [|done].
  injection Hcmd as <-. split; [apply strip_idem|].
  apply split_lines_elem in Hin as [_ Hnl].
  destruct (strip_infix (drop 5 line)) as (pre & post & Hstrip).
  intros Hin. apply Hnl.
  rewrite <- (take_drop 5 line), Hstrip.
  rewrite !elem_of_app. auto.
Qed.

(** A marker counts only at the very start of a line. *)
Example exec_commands_of_reply :
  exec_commands Sample.reply = [lit "git status"].
Proof. vm_compute. reflexivity. Qed.

End ExecutorFacts.

(** ** Examples *)

Lemma authorized_identity_is_unique_witness :
  Bot.is_authorized Sample.owner 12345 = true /\ (12345 : Z) = 12345.
Proof.
  split; [vm_compute; reflexivity|].
  apply (authorized_identity_is_unique Sample.owner 12345 12345);
    vm_compute; reflexivity.
Defined.

Lemma sanitized_description_is_safe_witness :
  lit "fix the parser" = strip (lit "  fix the parser ")
  /\ contains (lit "..") (lit "fix the parser") = false.
Proof.
  destruct (sanitized_description_is_safe (lit "  fix the parser ")
              (lit "fix the parser")) as (H1 & _ & _ & _ & _ & _ & H7).
  - vm_compute. reflexivity.
  - split; [exact H1|exact H7].
Defined.

Lemma sanitize_is_idempotent_witness :
  Bot.sanitize_task_description (lit "fix the parser")
  = inr (lit "fix the parser").
Proof.
  apply (sanitize_is_idempotent (lit "  fix the parser ")).
  vm_compute. reflexivity.
Defined.

Lemma blank_description_is_refused_witness :
  Bot.sanitize_task_description (lit "   ") = inl forbidden_characters.
Proof.
  apply blank_description_is_refused. vm_compute. reflexivity.
Defined.

Lemma unset_path_is_reported_witness :
  Bot.status_file_not_set
  ∈ Bot.validate_configuration Sample.printed_path Sample.unconfigured.
Proof.
  apply (proj1 (unset_path_is_reported Sample.printed_path
                  Sample.unconfigured eq_refl)).
  reflexivity.
Defined.

Lemma queries_leave_the_world_witness :
  run (Bot.handle Sample.owner (Sample.stranger_sends Bot.slash_status)
         Sample.gate_open) Sample.gate_open = Some Sample.gate_open.
Proof.
  apply (queries_leave_the_world Sample.owner
           (Sample.stranger_sends Bot.slash_status) Sample.gate_open).
  right. right. reflexivity.
Defined.

Lemma gate_is_only_closed_witness :
  APPROVAL_FILE
    (set_APPROVAL_FILE None
       (set_RESPONSE_FILE (Some (lit "APPROVED")) Sample.gate_open))
  = APPROVAL_FILE Sample.gate_open
  \/ APPROVAL_FILE
       (set_APPROVAL_FILE None
          (set_RESPONSE_FILE (Some (lit "APPROVED")) Sample.gate_open))
     = None.
Proof.
  apply (gate_is_only_closed Sample.owner
           [Sample.owner_sends Bot.slash_approve] Sample.gate_open
           (set_APPROVAL_FILE None
              (set_RESPONSE_FILE (Some (lit "APPROVED")) Sample.gate_open))).
  vm_compute. reflexivity.
Defined.

Lemma task_files_are_kept_witness :
  pending_task
    (set_APPROVAL_FILE None
       (set_RESPONSE_FILE (Some (lit "APPROVED")) Sample.gate_open))
  = pending_task Sample.gate_open.
Proof.
  apply (task_files_are_kept Sample.owner
           [Sample.owner_sends Bot.slash_approve] Sample.gate_open
           (set_APPROVAL_FILE None
              (set_RESPONSE_FILE (Some (lit "APPROVED")) Sample.gate_open))).
  vm_compute. reflexivity.
Defined.

Lemma strangers_change_nothing_witness :
  Bot.run_polling Sample.owner
    [Sample.stranger_sends Bot.slash_task;
     Sample.stranger_sends Bot.slash_approve] Sample.gate_open
  = Some Sample.gate_open.
Proof.
  apply (strangers_change_nothing Sample.owner).
  repeat constructor.
Defined.

Lemma status_shows_created_task_witness :
  exists w',
    run (Bot.create_task Sample.owner Sample.noon Sample.request
           Sample.gate_open) Sample.gate_open = Some w'
    /\ Bot.status Sample.owner Sample.request w'
       = [reply_text
            (StatusReport
               (Some ([128994%N] ++ lit " New Task" ++ NL ++ NL ++
                      lit "Task: fix the parser" ++ NL ++
                      lit "Started: 12:00 PM" ++ NL ++
                      lit "File: telegram_20240101_120000_000001.md" ++ NL))
               true)].
Proof.
  destruct (status_shows_created_task Sample.owner Sample.noon
              Sample.request Sample.request Sample.gate_open
              (lit "fix the parser"))
    as (w' & Hrun & _ & Hstatus & _).
  - vm_compute. reflexivity.
  - vm_compute. reflexivity.
  - vm_compute. reflexivity.
  - exists w'. split; [exact Hrun|]. rewrite Hstatus.
    vm_compute. reflexivity.
Defined.

Lemma second_resolution_is_ignored_witness :
  exists w1,
    run (Bot.approve Sample.owner Sample.request Sample.gate_open)
        Sample.gate_open = Some w1
    /\ RESPONSE_FILE w1 = Some (lit "APPROVED")
    /\ Bot.approve Sample.owner Sample.request w1
       = [reply_text NoPendingApprovals]
    /\ Bot.reject Sample.owner Sample.request w1
       = [reply_text NoPendingApprovals].
Proof.
  apply (second_resolution_is_ignored Sample.owner Sample.request
           Sample.request Sample.gate_open).
  - vm_compute. reflexivity.
  - vm_compute. reflexivity.
  - eexists. reflexivity.
Defined.

Lemma later_task_takes_over_witness :
  exists w1 w2 files,
    run (Bot.create_task Sample.owner Sample.noon Sample.request
           empty_world) empty_world = Some w1
    /\ run (Bot.create_task Sample.owner Sample.later
              (Sample.from_owner [lit "deploy"]) w1) w1 = Some w2
    /\ TASKS_DIR w2 = Some files
    /\ STATUS_FILE w2 = Some (Bot.status_content Sample.later (lit "deploy"))
    /\ files !! Bot.task_file_name Sample.later
       = Some (Bot.task_content Sample.later (lit "deploy"))
    /\ (Bot.timestamp Sample.noon <> Bot.timestamp Sample.later ->
        files !! Bot.task_file_name Sample.noon
        = Some (Bot.task_content Sample.noon (lit "fix the parser"))).
Proof.
  apply (later_task_takes_over Sample.owner Sample.noon Sample.later
           Sample.request (Sample.from_owner [lit "deploy"]) empty_world
           (lit "fix the parser") (lit "deploy"));
    vm_compute; reflexivity.
Defined.

Lemma probe_ignores_order_witness :
  BotV3.detect_execution_mode ascii_lower Sample.agent_running
  = BotV3.detect_execution_mode ascii_lower (rev Sample.agent_running).
Proof.
  apply (proj1 (probe_ignores_order ascii_lower Sample.agent_running
                  (rev Sample.agent_running) (perm_swap _ _ []))).
  repeat constructor; by eexists.
Defined.

Lemma mode_command_pins_backend_witness :
  exists w',
    run (BotV3.cloud_mode Sample.request empty_world) empty_world = Some w'
    /\ user_execution_mode w' !! (12345 : Z) = Some cloud
    /\ BotV3.execution_mode ascii_lower Sample.agent_running 12345 w'
       = Some cloud.
Proof.
  destruct (proj1 (mode_command_pins_backend ascii_lower
                     Sample.agent_running Sample.request 999 empty_world))
    as (w' & Hrun & Hstored & Hmode & _).
  exists w'. split; [exact Hrun|]. split; [exact Hstored|].
  apply Hmode. vm_compute. eexists. reflexivity.
Defined.

Lemma v3_leaves_task_store_witness :
  is_Some (BotV3.run_polling ascii_lower Sample.token
             [Sample.v3_owner_sends BotV3.slash_auto;
              Sample.v3_owner_sends BotV3.slash_task] Sample.gate_open).
Proof.
  apply (proj1 (v3_leaves_task_store ascii_lower Sample.token
                  [Sample.v3_owner_sends BotV3.slash_auto;
                   Sample.v3_owner_sends BotV3.slash_task]
                  Sample.gate_open)).
  repeat constructor; vm_compute; by eexists.
Defined.

Lemma stored_mode_is_never_cleared_witness :
  is_Some (user_execution_mode Sample.cloud_pinned !! (12345 : Z)).
Proof.
  apply (stored_mode_is_never_cleared ascii_lower Sample.token
           [Sample.v3_owner_sends BotV3.slash_task] 12345
           Sample.cloud_pinned Sample.cloud_pinned).
  - vm_compute. reflexivity.
  - vm_compute. eexists. reflexivity.
Defined.

Lemma status_agrees_with_task_witness :
  exists mode rest,
    BotV3.task_command ascii_lower Sample.token Sample.agent_running
      Sample.accepting Sample.disk_ok Sample.request Sample.cloud_pinned
    = reply_text (TaskQueued mode (Bot.raw_description Sample.request))
      :: rest
    /\ BotV3.status_command ascii_lower Sample.token Sample.agent_running
         Sample.request Sample.cloud_pinned
       = [reply_text
            (ModeStatus
               (user_execution_mode Sample.cloud_pinned
                  !! effective_chat_id Sample.request)
               local (truthy Sample.token) mode)].
Proof.
  apply (proj1 (status_agrees_with_task ascii_lower Sample.token
                  Sample.agent_running Sample.accepting Sample.disk_ok
                  Sample.request Sample.cloud_pinned
                  ltac:(vm_compute; discriminate)) local).
  vm_compute. reflexivity.
Defined.

Lemma task_dispatch_effects_witness :
  exists w',
    run (BotV3.task_command ascii_lower Sample.token Sample.agent_running
           Sample.accepting Sample.disk_ok Sample.request empty_world)
        empty_world = Some w'
    /\ pending_task w' = Some (lit "fix the parser").
Proof.
  destruct (task_dispatch_effects ascii_lower Sample.token
              Sample.agent_running Sample.accepting Sample.disk_ok
              Sample.request empty_world local) as [Hlocal _].
  - vm_compute. discriminate.
  - vm_compute. reflexivity.
  - destruct (Hlocal eq_refl) as [(w' & Hrun & Hpending & _) _].
    exists w'. split; [exact Hrun|exact Hpending].
Defined.

Lemma request_identifies_origin_witness : (12345 : Z) = 12345.
Proof.
  apply (proj1 (request_identifies_origin Sample.token 12345 12345 7 8
                  (lit "deploy") (lit "test"))).
  reflexivity.
Defined.

Lemma notification_needs_credentials_witness :
  Notification.CHAT_ID Sample.finished = Some (lit "12345").
Proof.
  apply (proj2 (notification_needs_credentials Sample.ascii_upper
                  Sample.finished)
           {| Notification.send_url :=
                lit "https://api.telegram.org/bot123:abc/sendMessage";
              Notification.send_chat_id := lit "12345";
              Notification.send_text :=
                Notification.message Sample.ascii_upper (lit "success")
                  (lit "All tests pass");
              Notification.send_parse_mode := lit "Markdown" |}).
  reflexivity.
Defined.

Lemma notification_text_is_bounded_witness :
  exists pre post,
    Notification.message Sample.ascii_upper (lit "success")
      (lit "All tests pass")
    = pre ++ lit "All tests pass" ++ post.
Proof.
  apply (notification_text_is_bounded Sample.ascii_upper (lit "success")
           (lit "All tests pass")).
  vm_compute. lia.
Defined.

Lemma no_marker_no_command_witness :
  CloudExecutor.exec_commands (lit "SUMMARY: nothing to do") = [].
Proof.
  apply no_marker_no_command. vm_compute. reflexivity.
Defined.

Lemma commands_are_stripped_lines_witness :
  strip (lit "git status") = lit "git status"
  /\ 10%N ∉ lit "git status".
Proof.
  apply (commands_are_stripped_lines Sample.reply (lit "git status")).
  vm_compute. apply list_elem_of_here.
Defined.
